(** * Air Quality Monitor: the dashboard component's script, embedded and verified

    The component is a single Svelte file.  Its script part keeps the view
    state in module-level variables and updates them from a handful of
    functions.  This development embeds the functions the specification
    speaks about:

    - [convertOpenWeatherMapAQI], [getAQIColor], [getAQIDescription] and
      [getDominantPollutant] (pure functions over JavaScript numbers);
    - [getCachedPosition], [cachePosition] and [getUserLocation]
      (location resolution over the local storage entry and the clock);
    - [fetchAirQuality] and [updateChart] (the two provider calls and the
      state they write);
    - [searchLocation] (query routing, the lenient retry and its filter);
    - [getTextColorForAQI], [getPollutantDescription] and
      [getHealthRecommendations] (the other display helpers);
    - the scale [updateChart] computes, the reactive redraw and the theme
      changes ([toggleDarkMode], the listener of [watchSystemTheme]);
    - [fetchLocationName] and [selectLocation].

    JavaScript numbers are IEEE 754 binary64 values, which is what Rocq's
    primitive [float] type is: arithmetic and comparisons below are the
    kernel's, so [30 / 15], [NaN > 0] or [2.5 === 2] evaluate as they do in
    the browser.  Asynchronous code is written in explicit state-passing
    style: a function takes the component state and the outcome of the
    platform calls it awaits, and returns the new state together with the
    requests it issued. *)

From Stdlib Require Import ZArith PArith Bool List String Ascii Lia.
From Stdlib Require Import Floats.
Import ListNotations.

#[local] Set Warnings "-inexact-float".
#[local] Open Scope bool_scope.

(* ================================================================== *)
(** * JavaScript numbers *)
(* ================================================================== *)

Module JSNumber.

#[local] Open Scope float_scope.

(** The relational operators of the language on numbers.  [a >= b] and
    [a > b] are the IEEE comparisons with the operands swapped; every
    comparison with NaN is false. *)
Definition le (a b : float) : bool := (a <=? b).
Definition lt (a b : float) : bool := (a <? b).
Definition ge (a b : float) : bool := (b <=? a).
Definition gt (a b : float) : bool := (b <? a).
(** [a === b] on two numbers. *)
Definition strict_eq (a b : float) : bool := (a =? b).

(** ToBoolean on a number: [0], [-0] and NaN are falsy. *)
Definition truthy (a : float) : bool := negb ((a =? 0) || is_nan a).

(** [Number.isInteger]: a finite value without fractional part.  A
    binary64 value [m * 2^e] with [e < 0] is an integer when [2^(-e)]
    divides [m]. *)
Definition isInteger (a : float) : bool :=
  match Prim2SF a with
  | S754_zero _ => true
  | S754_finite _ m e =>
      if (0 <=? e)%Z then true
      else (Z.pos m mod 2 ^ (- e) =? 0)%Z
  | S754_infinity _ | S754_nan => false
  end.

(** A rank that orders the specification floats as [SFcompare] does:
    sign class first, then exponent and mantissa. *)
Inductive rank : Type :=
| RNegInf | RNeg (e : Z) (m : positive) | RZero
| RPos (e : Z) (m : positive) | RPosInf.

Definition rank_of (x : spec_float) : option rank :=
  match x with
  | S754_nan => None
  | S754_infinity true => Some RNegInf
  | S754_infinity false => Some RPosInf
  | S754_zero _ => Some RZero
  | S754_finite true m e => Some (RNeg e m)
  | S754_finite false m e => Some (RPos e m)
  end.

Definition rank_lt (a b : rank) : Prop :=
  match a, b with
  | RNegInf, RNegInf => False
  | RNegInf, _ => True
  | RNeg _ _, RNegInf => False
  | RNeg e1 m1, RNeg e2 m2 =>
      (e2 < e1 \/ (e1 = e2 /\ (m2 < m1)%positive))%Z
  | RNeg _ _, _ => True
  | RZero, (RPos _ _ | RPosInf) => True
  | RZero, _ => False
  | RPos e1 m1, RPos e2 m2 =>
      (e1 < e2 \/ (e1 = e2 /\ (m1 < m2)%positive))%Z
  | RPos _ _, RPosInf => True
  | RPos _ _, _ => False
  | RPosInf, _ => False
  end.

Definition frank (a : float) : option rank := rank_of (Prim2SF a).

End JSNumber.

(* ================================================================== *)
(** * JavaScript strings *)
(* ================================================================== *)

(** A string is a sequence of code units.  The model covers the code units
    below 256 (Basic Latin and Latin-1), one [ascii] each; on them the
    functions below are the built-in ones. *)
Module JSString.

#[local] Open Scope string_scope.

Definition code (ch : ascii) : N := N_of_ascii ch.

(** [\d] without the unicode flag: the digits 0 to 9. *)
Definition isDigit (ch : ascii) : bool :=
  (48 <=? code ch)%N && (code ch <=? 57)%N.

(** WhiteSpace and LineTerminator code units below 256: TAB, LF, VT, FF,
    CR, SP and NBSP. *)
Definition isWhiteSpace (ch : ascii) : bool :=
  let n := code ch in
  ((9 <=? n)%N && (n <=? 13)%N) || (n =? 32)%N || (n =? 160)%N.

Fixpoint every (f : ascii -> bool) (s : string) : bool :=
  match s with
  | EmptyString => true
  | String ch s' => f ch && every f s'
  end.

Fixpoint trimStart (s : string) : string :=
  match s with
  | EmptyString => EmptyString
  | String ch s' => if isWhiteSpace ch then trimStart s' else s
  end.

(** Drops trailing white space: a character stays when it is not white
    space or when something after it stays. *)
Fixpoint trimEnd (s : string) : string :=
  match s with
  | EmptyString => EmptyString
  | String ch s' =>
      match trimEnd s' with
      | EmptyString => if isWhiteSpace ch then EmptyString
                       else String ch EmptyString
      | rest => String ch rest
      end
  end.

Definition trim (s : string) : string := trimEnd (trimStart s).

(** ToBoolean on a string: only the empty string is falsy. *)
Definition truthy (s : string) : bool :=
  match s with EmptyString => false | _ => true end.

(** [/^\d+$/.test(s)]: one digit at least and nothing but digits. *)
Definition test_digits (s : string) : bool :=
  truthy s && every isDigit s.

(** [/^\d{5}$/.test(s)]: five digits exactly.  Without the multiline flag
    [$] matches at the end of the input only. *)
Definition test_five_digits (s : string) : bool :=
  (String.length s =? 5)%nat && every isDigit s.

(** [s.slice(0, -1)]: the string without its last code unit. *)
Fixpoint slice_0_minus1 (s : string) : string :=
  match s with
  | EmptyString => EmptyString
  | String ch EmptyString => EmptyString
  | String ch s' => String ch (slice_0_minus1 s')
  end.

(** [toLowerCase] on one code unit: A to Z, and the Latin-1 capitals
    U+00C0 to U+00DE without the multiplication sign U+00D7, move up by
    32. *)
Definition lower (ch : ascii) : ascii :=
  let n := code ch in
  if ((65 <=? n)%N && (n <=? 90)%N)
     || ((192 <=? n)%N && (n <=? 222)%N && negb (n =? 215)%N)
  then ascii_of_N (n + 32)
  else ch.

Fixpoint toLowerCase (s : string) : string :=
  match s with
  | EmptyString => EmptyString
  | String ch s' => String (lower ch) (toLowerCase s')
  end.

(** [s.includes(sub)]: [sub] occurs in [s] at some position. *)
Fixpoint includes (s sub : string) : bool :=
  String.prefix sub s ||
  match s with
  | EmptyString => false
  | String _ s' => includes s' sub
  end.

End JSString.

(* ================================================================== *)
(** * Derived metrics: index conversion, bands, dominant pollutant *)
(* ================================================================== *)

Module Metrics.

Import JSNumber.
#[local] Open Scope float_scope.
#[local] Open Scope string_scope.

(** ** convertOpenWeatherMapAQI *)

(** The object literal [conversion = { 1: 20, 2: 60, 3: 120, 4: 180,
    5: 250 }].  Its keys are the canonical numeric strings ["1"] to ["5"]:
    for a number [k], the property read [conversion[k]] finds the entry
    whose key is ToString(k), that is the entry numerically equal to [k],
    and is [undefined] (here [None]) when there is none. *)
Definition conversion : list (float * float) :=
  [ (1, 20);    (* Good (0-50) *)
    (2, 60);    (* Fair (51-100) *)
    (3, 120);   (* Moderate (101-150) *)
    (4, 180);   (* Poor (151-200) *)
    (5, 250) ]. (* Very Poor (201-300) *)

Fixpoint property (o : list (float * float)) (key : float) : option float :=
  match o with
  | [] => None
  | (k, v) :: o' => if strict_eq key k then Some v else property o' key
  end.

(** [a || b] with [a] a property read: [undefined] and falsy numbers give
    way to [b]. *)
Definition or_else (a : option float) (b : float) : float :=
  match a with
  | Some v => if truthy v then v else b
  | None => b
  end.

Definition convertOpenWeatherMapAQI (owmAQI : float) : float :=
  or_else (property conversion owmAQI) owmAQI.

(** ** getAQIColor and getAQIDescription *)

(** Both functions first test [typeof aqi === 'number' && aqi >= 1 &&
    aqi <= 5]; the argument is a number here, so the test is the range
    test.  The [switch] compares with [===]. *)
Definition getAQIColor (aqi : float) : string :=
  if ge aqi 1 && le aqi 5 then
    if strict_eq aqi 1 then "#22c55e"        (* Good - green-500 *)
    else if strict_eq aqi 2 then "#eab308"   (* Fair - yellow-500 *)
    else if strict_eq aqi 3 then "#f97316"   (* Moderate - orange-500 *)
    else if strict_eq aqi 4 then "#ef4444"   (* Poor - red-500 *)
    else if strict_eq aqi 5 then "#8F3F97"   (* Very Poor - purple *)
    else "#6b7280"                           (* gray-500 *)
  else
    (* Regular AQI scale (0-300+) *)
    if le aqi 50 then "#22c55e"
    else if le aqi 100 then "#eab308"
    else if le aqi 150 then "#f97316"
    else if le aqi 200 then "#ef4444"
    else if le aqi 300 then "#8F3F97"
    else "#6b7280".

Definition getAQIDescription (aqi : float) : string :=
  if ge aqi 1 && le aqi 5 then
    if strict_eq aqi 1 then "Good"
    else if strict_eq aqi 2 then "Fair"
    else if strict_eq aqi 3 then "Moderate"
    else if strict_eq aqi 4 then "Poor"
    else if strict_eq aqi 5 then "Very Poor"
    else "Unknown"
  else
    if le aqi 50 then "Good"
    else if le aqi 100 then "Moderate"
    else if le aqi 150 then "Unhealthy for Sensitive Groups"
    else if le aqi 200 then "Unhealthy"
    else if le aqi 300 then "Very Unhealthy"
    else "Hazardous".

Definition getAQIStatus (aqi : float) : string := getAQIDescription aqi.

(** ** getDominantPollutant *)

(** The component's [pollutants] object.  Both places that build it (the
    initial value and [fetchAirQuality]) write the six keys in this
    order, which is the order [Object.entries] enumerates them in. *)
Record Pollutants : Type := mkPollutants {
  PM2_5 : float;
  PM10 : float;
  NO2 : float;
  SO2 : float;
  O3 : float;
  CO : float
}.

Definition entries (p : Pollutants) : list (string * float) :=
  [ ("PM2_5", PM2_5 p); ("PM10", PM10 p); ("NO2", NO2 p);
    ("SO2", SO2 p); ("O3", O3 p); ("CO", CO p) ].

(** WHO guidelines, in micrograms per cubic metre. *)
Definition guidelines : list (string * float) :=
  [ ("PM2_5", 15); ("PM10", 45); ("NO2", 25);
    ("SO2", 40); ("O3", 100); ("CO", 4000) ].

Fixpoint guideline_in (o : list (string * float)) (key : string)
  : option float :=
  match o with
  | [] => None
  | (k, v) :: o' => if String.eqb key k then Some v else guideline_in o' key
  end.

(** [value / guidelines[key]]; dividing by [undefined] gives NaN. *)
Definition ratio (key : string) (value : float) : float :=
  match guideline_in guidelines key with
  | Some g => value / g
  | None => nan
  end.

(** One turn of the [forEach] callback over the pair
    [(maxRatio, dominant)]. *)
Definition visit (acc : float * option string) (kv : string * float)
  : float * option string :=
  let '(maxRatio, dominant) := acc in
  let '(key, value) := kv in
  let r := ratio key value in
  if gt r maxRatio then (r, Some key) else (maxRatio, dominant).

(** The argument is [None] for a falsy [pollutants] ([null],
    [undefined]); the result is [None] for [null]. *)
Definition getDominantPollutant (pollutants : option Pollutants)
  : option string :=
  match pollutants with
  | None => None
  | Some p => snd (fold_left visit (entries p) (0, None))
  end.

(** The component's initial reading, [{ PM2_5: 0, PM10: 0, NO2: 0, SO2: 0,
    O3: 0, CO: 0 }]. *)
Definition zero_reading : Pollutants := mkPollutants 0 0 0 0 0 0.

(** The reading of the specification's example. *)
Definition example_reading : Pollutants := mkPollutants 30 20 10 5 50 2000.

End Metrics.

(* ================================================================== *)
(** * The component state *)
(* ================================================================== *)

Module App.

Import Metrics.
#[local] Open Scope float_scope.
#[local] Open Scope string_scope.

(** ** Provider payloads *)

(** One element of the [list] array of the air-pollution endpoints, with
    the fields the script reads: [main.aqi], six of the [components] and
    [dt] (seconds since the epoch). *)
Record Main : Type := mkMain { aqi : float }.

Record Components : Type := mkComponents {
  pm2_5 : float;
  pm10 : float;
  no2 : float;
  so2 : float;
  o3 : float;
  co : float
}.

Record Entry : Type := mkEntry {
  main : Main;
  components : Components;
  dt : Z
}.

(** What [searchLocation] keeps of a geocoding match: [{ name, state,
    country, lat, lon }].  [state] may be [undefined]. *)
Record SearchResult : Type := mkSearchResult {
  name : string;
  state : option string;
  country : string;
  lat : float;
  lon : float
}.

(** The line chart, as far as its data goes: one label and one value per
    point.  A label is the local time of day of the instant; the instant
    (milliseconds since the epoch) stands for it.  Colours, fonts and
    scale options are left out. *)
Record Chart : Type := mkChart {
  labels : list Z;
  data : list float
}.

(** ** The script's variables *)

(** [chartCanvas] is the canvas element Svelte binds, here whether it is
    bound; [error] and [lastUpdateTime] are [null] at first. *)
Record Component : Type := mkComponent {
  darkMode : bool;
  loading : bool;
  error : option string;
  chartCanvas : bool;
  chart : option Chart;
  currentAQI : float;
  location : string;
  locationInput : string;
  searchResults : list SearchResult;
  isSearching : bool;
  searchError : string;
  pollutants : Pollutants;
  forecastData : list Entry;
  lastUpdateTime : option Z;
  latitude : float;
  longitude : float
}.

Definition set_error (v : option string) (c : Component) : Component :=
  {| darkMode := darkMode c;
     loading := loading c;
     error := v;
     chartCanvas := chartCanvas c;
     chart := chart c;
     currentAQI := currentAQI c;
     location := location c;
     locationInput := locationInput c;
     searchResults := searchResults c;
     isSearching := isSearching c;
     searchError := searchError c;
     pollutants := pollutants c;
     forecastData := forecastData c;
     lastUpdateTime := lastUpdateTime c;
     latitude := latitude c;
     longitude := longitude c |}.

Definition set_chart (v : option Chart) (c : Component) : Component :=
  {| darkMode := darkMode c;
     loading := loading c;
     error := error c;
     chartCanvas := chartCanvas c;
     chart := v;
     currentAQI := currentAQI c;
     location := location c;
     locationInput := locationInput c;
     searchResults := searchResults c;
     isSearching := isSearching c;
     searchError := searchError c;
     pollutants := pollutants c;
     forecastData := forecastData c;
     lastUpdateTime := lastUpdateTime c;
     latitude := latitude c;
     longitude := longitude c |}.

Definition set_currentAQI (v : float) (c : Component) : Component :=
  {| darkMode := darkMode c;
     loading := loading c;
     error := error c;
     chartCanvas := chartCanvas c;
     chart := chart c;
     currentAQI := v;
     location := location c;
     locationInput := locationInput c;
     searchResults := searchResults c;
     isSearching := isSearching c;
     searchError := searchError c;
     pollutants := pollutants c;
     forecastData := forecastData c;
     lastUpdateTime := lastUpdateTime c;
     latitude := latitude c;
     longitude := longitude c |}.

Definition set_searchResults (v : list SearchResult) (c : Component) : Component :=
  {| darkMode := darkMode c;
     loading := loading c;
     error := error c;
     chartCanvas := chartCanvas c;
     chart := chart c;
     currentAQI := currentAQI c;
     location := location c;
     locationInput := locationInput c;
     searchResults := v;
     isSearching := isSearching c;
     searchError := searchError c;
     pollutants := pollutants c;
     forecastData := forecastData c;
     lastUpdateTime := lastUpdateTime c;
     latitude := latitude c;
     longitude := longitude c |}.

Definition set_isSearching (v : bool) (c : Component) : Component :=
  {| darkMode := darkMode c;
     loading := loading c;
     error := error c;
     chartCanvas := chartCanvas c;
     chart := chart c;
     currentAQI := currentAQI c;
     location := location c;
     locationInput := locationInput c;
     searchResults := searchResults c;
     isSearching := v;
     searchError := searchError c;
     pollutants := pollutants c;
     forecastData := forecastData c;
     lastUpdateTime := lastUpdateTime c;
     latitude := latitude c;
     longitude := longitude c |}.

Definition set_searchError (v : string) (c : Component) : Component :=
  {| darkMode := darkMode c;
     loading := loading c;
     error := error c;
     chartCanvas := chartCanvas c;
     chart := chart c;
     currentAQI := currentAQI c;
     location := location c;
     locationInput := locationInput c;
     searchResults := searchResults c;
     isSearching := isSearching c;
     searchError := v;
     pollutants := pollutants c;
     forecastData := forecastData c;
     lastUpdateTime := lastUpdateTime c;
     latitude := latitude c;
     longitude := longitude c |}.

Definition set_pollutants (v : Pollutants) (c : Component) : Component :=
  {| darkMode := darkMode c;
     loading := loading c;
     error := error c;
     chartCanvas := chartCanvas c;
     chart := chart c;
     currentAQI := currentAQI c;
     location := location c;
     locationInput := locationInput c;
     searchResults := searchResults c;
     isSearching := isSearching c;
     searchError := searchError c;
     pollutants := v;
     forecastData := forecastData c;
     lastUpdateTime := lastUpdateTime c;
     latitude := latitude c;
     longitude := longitude c |}.

Definition set_forecastData (v : list Entry) (c : Component) : Component :=
  {| darkMode := darkMode c;
     loading := loading c;
     error := error c;
     chartCanvas := chartCanvas c;
     chart := chart c;
     currentAQI := currentAQI c;
     location := location c;
     locationInput := locationInput c;
     searchResults := searchResults c;
     isSearching := isSearching c;
     searchError := searchError c;
     pollutants := pollutants c;
     forecastData := v;
     lastUpdateTime := lastUpdateTime c;
     latitude := latitude c;
     longitude := longitude c |}.

Definition set_lastUpdateTime (v : option Z) (c : Component) : Component :=
  {| darkMode := darkMode c;
     loading := loading c;
     error := error c;
     chartCanvas := chartCanvas c;
     chart := chart c;
     currentAQI := currentAQI c;
     location := location c;
     locationInput := locationInput c;
     searchResults := searchResults c;
     isSearching := isSearching c;
     searchError := searchError c;
     pollutants := pollutants c;
     forecastData := forecastData c;
     lastUpdateTime := v;
     latitude := latitude c;
     longitude := longitude c |}.

Definition set_latitude (v : float) (c : Component) : Component :=
  {| darkMode := darkMode c;
     loading := loading c;
     error := error c;
     chartCanvas := chartCanvas c;
     chart := chart c;
     currentAQI := currentAQI c;
     location := location c;
     locationInput := locationInput c;
     searchResults := searchResults c;
     isSearching := isSearching c;
     searchError := searchError c;
     pollutants := pollutants c;
     forecastData := forecastData c;
     lastUpdateTime := lastUpdateTime c;
     latitude := v;
     longitude := longitude c |}.

Definition set_longitude (v : float) (c : Component) : Component :=
  {| darkMode := darkMode c;
     loading := loading c;
     error := error c;
     chartCanvas := chartCanvas c;
     chart := chart c;
     currentAQI := currentAQI c;
     location := location c;
     locationInput := locationInput c;
     searchResults := searchResults c;
     isSearching := isSearching c;
     searchError := searchError c;
     pollutants := pollutants c;
     forecastData := forecastData c;
     lastUpdateTime := lastUpdateTime c;
     latitude := latitude c;
     longitude := v |}.

(** The values the variables are declared with.  The coordinates default
    to New York City. *)
Definition initial : Component :=
  {| darkMode := false;
     loading := true;
     error := None;
     chartCanvas := false;
     chart := None;
     currentAQI := 0;
     location := "";
     locationInput := "";
     searchResults := [];
     isSearching := false;
     searchError := "";
     pollutants := zero_reading;
     forecastData := [];
     lastUpdateTime := None;
     latitude := 40.7128;
     longitude := -74.0060 |}.

End App.

(* ================================================================== *)
(** * Location resolution *)
(* ================================================================== *)

Module Location.

Import App.
#[local] Open Scope float_scope.
#[local] Open Scope Z_scope.

(** A position object, [{ latitude, longitude }], as [getCachedPosition]
    returns it. *)
Record Position : Type := mkPosition {
  pos_latitude : float;
  pos_longitude : float
}.

(** The binary64 values other than NaN and the two infinities. *)
Definition finite (a : float) : bool :=
  match Prim2SF a with
  | S754_zero _ | S754_finite _ _ _ => true
  | S754_infinity _ | S754_nan => false
  end.

(** A coordinate of a geolocation fix.  The platform declares [latitude]
    and [longitude] of [GeolocationCoordinates] with the Web IDL type
    [double], whose values are the finite ones: a fix never carries NaN or
    an infinity. *)
Record Degrees : Type := mkDegrees {
  number : float;
  number_finite : finite number = true
}.

(** The [coords] of a geolocation fix. *)
Record Coordinates : Type := mkCoordinates {
  coords_latitude : Degrees;
  coords_longitude : Degrees
}.

(** The local storage entry under [CACHED_POSITION_KEY].  [Cached lat lon
    timestamp] is text that [JSON.parse] reads as [{ lat, lon, timestamp }];
    [Corrupt] is text it throws on.  Times are milliseconds since the
    epoch. *)
Inductive Item : Type :=
| Corrupt
| Cached (lat lon : float) (timestamp : Z).

(** The browser's [localStorage], as far as the component uses it: what
    [getItem] returns for the key ([None]: [null], or the empty string,
    falsy too; a [getItem] that throws is caught and has the same effect),
    and whether [setItem] throws (the quota is exceeded, or the storage is
    disabled). *)
Record Storage : Type := mkStorage {
  getItem : option Item;
  setItem_throws : bool
}.

Definition CACHE_EXPIRY_TIME : Z := 30 * 60 * 1000. (* 30 minutes *)

(** [now] is the reading of [Date.now()].  An exception of [JSON.parse] is
    caught and the function returns [null]. *)
Definition getCachedPosition (localStorage : Storage) (now : Z)
  : option Position :=
  match getItem localStorage with
  | Some (Cached lat lon timestamp) =>
      if now - timestamp <? CACHE_EXPIRY_TIME
      then Some (mkPosition lat lon)
      else None
  | Some Corrupt => None
  | None => None
  end.

(** The number [JSON.parse] reads from the text [JSON.stringify] writes
    for a finite number.  The text of a number is the shortest decimal that
    reads back as the same binary64 value, except that [-0] is written
    ["0"], which reads back as [0]. *)
Definition JSON_number (d : Degrees) : float :=
  if (number d =? 0)%float then 0%float else number d.

(** [now] is the reading of [Date.now()], an integer, which the text
    holds exactly.  An exception of [setItem] is caught, and nothing is
    stored then.  Both callers, [getUserLocation] and
    [updatePositionInBackground], pass the coordinates of a fix they have
    just received; for NaN or an infinity the text would hold [null], a
    value no fix has. *)
Definition cachePosition (lat lon : Degrees) (now : Z)
    (localStorage : Storage) : Storage :=
  if setItem_throws localStorage then localStorage
  else
    {| getItem := Some (Cached (JSON_number lat) (JSON_number lon) now);
       setItem_throws := setItem_throws localStorage |}.

(** What the platform answers to the two [getCurrentPosition] requests:
    the [coords] of a fix, or [None] when the error callback runs (denied,
    unavailable, timed out).  [Unavailable]: there is no
    ["geolocation" in navigator]. *)
Inductive Geolocation : Type :=
| Unavailable
| Available (highAccuracy lowAccuracy : option Coordinates).

(** The high accuracy request, and on its failure the low accuracy one. *)
Definition requestPosition (g : Geolocation)
  : option (option Coordinates) :=
  match g with
  | Unavailable => None
  | Available (Some coords) _ => Some (Some coords)
  | Available None lowAccuracy => Some lowAccuracy
  end.

(** The result of [getUserLocation]: the component, the storage, and
    whether [updatePositionInBackground] was started.  That function runs
    after the body below has returned; it asks the platform again, and
    what it writes later is not part of this result. *)
Record Resolved : Type := mkResolved {
  component : Component;
  storage : Storage;
  background : bool
}.

(** The body of the promise, run to its own end.  [now] is the clock when
    the function starts and [later] the clock when the geolocation
    requests have settled.  The eight second timer only resolves the promise early:
    it lets the caller go on with the coordinates as they are then, and
    does not change what the body writes. *)
Definition getUserLocation (g : Geolocation) (now later : Z)
    (c : Component) (localStorage : Storage) : Resolved :=
  (* First, try to get cached position *)
  match getCachedPosition localStorage now with
  | Some cachedPosition =>
      let c := set_latitude (pos_latitude cachedPosition) c in
      let c := set_longitude (pos_longitude cachedPosition) c in
      (* Still update the cache in the background *)
      mkResolved c localStorage true
  | None =>
      (* If no cached position, try to get current position *)
      match requestPosition g with
      | None => mkResolved c localStorage false
      | Some (Some coords) =>
          let c := set_latitude (number (coords_latitude coords)) c in
          let c := set_longitude (number (coords_longitude coords)) c in
          (* cachePosition(latitude, longitude), just assigned *)
          mkResolved c
            (cachePosition (coords_latitude coords) (coords_longitude coords)
               later localStorage)
            false
      | Some None =>
          (* catch: use cached position as fallback if available *)
          match getCachedPosition localStorage later with
          | Some fallbackPosition =>
              let c := set_latitude (pos_latitude fallbackPosition) c in
              let c := set_longitude (pos_longitude fallbackPosition) c in
              mkResolved c localStorage false
          | None =>
              (* Otherwise, default coordinates will be used *)
              mkResolved c localStorage false
          end
      end
  end.

(** ** Sample data *)

Definition london : Coordinates :=
  mkCoordinates (mkDegrees 51.5074 eq_refl) (mkDegrees (-0.1278) eq_refl).

Definition greenwich_equator : Coordinates :=
  mkCoordinates (mkDegrees neg_zero eq_refl) (mkDegrees neg_zero eq_refl).

(** A storage that holds London, cached at time 0. *)
Definition london_at_0 : Storage :=
  mkStorage (Some (Cached 51.5074 (-0.1278) 0)) false.

End Location.

(* ================================================================== *)
(** * The air quality fetch *)
(* ================================================================== *)

Module Fetcher.

Import JSNumber Metrics App.
#[local] Open Scope float_scope.
#[local] Open Scope string_scope.

(** The two requests of [fetchAirQuality], by path and coordinates. *)
Inductive Request : Type :=
| AirPollution (lat lon : float)
| AirPollutionForecast (lat lon : float).

(** The decoded body of either endpoint, an object whose [list] property
    is an array of entries or is missing. *)
Record Payload : Type := mkPayload {
  entry_list : option (list Entry)
}.

(** How one [fetch] call ends: the promise is rejected (no response at
    all), or it yields a response with its [ok] flag and body; [json] is
    [None] when [response.json()] is rejected because the body is not
    JSON. *)
Inductive Fetched : Type :=
| Rejected
| Response (ok : bool) (json : option Payload).

(** What ends the [try] block early. *)
Inductive Exception : Type :=
| Error (message : string)
| FetchRejected
| BodyNotJSON.

(** [updateChart(data)].  The function is declared [async] and contains no
    [await]: its body runs to the end when it is called.  It destroys the
    previous chart and creates one with a label and a converted index per
    item, in the order of [data].  The component's reactive statement
    calls it with [forecastData] again whenever that variable or the canvas
    changes, which draws the same chart. *)
Definition updateChart (data : list Entry) (c : Component) : Component :=
  if negb (chartCanvas c) then c
  else
    let labels := map (fun item => (dt item * 1000)%Z) data in
    let aqi_data := map (fun item => convertOpenWeatherMapAQI (aqi (main item)))
                        data in
    set_chart (Some (mkChart labels aqi_data)) c.

(** [list.slice(0, 24)]. *)
Definition slice_0_24 {A : Type} (l : list A) : list A := firstn 24 l.

(** The [try] block, after both [fetch] promises have settled.
    [Promise.all] rejects when either does. *)
Definition try_block (currentResponse forecastResponse : Fetched)
    (c : Component) : Exception + Component :=
  match currentResponse, forecastResponse with
  | Rejected, _ | _, Rejected => inl FetchRejected
  | Response current_ok current_json, Response forecast_ok forecast_json =>
      if negb current_ok then
        inl (Error "Failed to fetch air quality data")
      else if negb forecast_ok then
        inl (Error "Failed to fetch forecast data")
      else
        match current_json, forecast_json with
        | None, _ | _, None => inl BodyNotJSON
        | Some currentData, Some forecastDataResponse =>
            match entry_list currentData with
            | None | Some [] =>
                inl (Error "Invalid air quality data format")
            | Some (current :: _) =>
                (* Process current data *)
                let c := set_currentAQI
                           (convertOpenWeatherMapAQI (aqi (main current))) c in
                let c := set_pollutants
                           {| PM2_5 := pm2_5 (components current);
                              PM10 := pm10 (components current);
                              NO2 := no2 (components current);
                              SO2 := so2 (components current);
                              O3 := o3 (components current);
                              CO := co (components current) |} c in
                (* Process forecast data for the chart *)
                let c :=
                  match entry_list forecastDataResponse with
                  | Some (item :: items) =>
                      let c := set_forecastData
                                 (slice_0_24 (item :: items)) c in
                      if chartCanvas c
                      then updateChart (forecastData c) c
                      else c
                  | Some [] | None => c
                  end in
                inr (set_lastUpdateTime (Some (dt current * 1000)%Z) c)
            end
        end
  end.

(** The network, as far as this function sees it: how the [fetch] of each
    request ends. *)
Definition Network : Type := Request -> Fetched.

(** [fetchAirQuality()]: both requests are issued with the component's
    coordinates, the [try] block runs on their outcomes, and the [catch]
    clause writes the error message.  The result is the component and the
    requests issued, in order. *)
Definition fetchAirQuality (fetch : Network) (c : Component)
  : Component * list Request :=
  let current := AirPollution (latitude c) (longitude c) in
  let forecast := AirPollutionForecast (latitude c) (longitude c) in
  match try_block (fetch current) (fetch forecast) c with
  | inr c' => (c', [current; forecast])
  | inl _ =>
      (set_error
         (Some "Failed to fetch air quality data. Please try again later.") c,
       [current; forecast])
  end.

(** ** The ways a fetch can fail, in the specification's words *)

(** The response arrived and is not successful ([ok] is false). *)
Definition unsuccessful (r : Fetched) : Prop :=
  exists json, r = Response false json.

(** The payload lacks the expected first list entry: [list] is missing or
    empty. *)
Definition lacks_first_entry (r : Fetched) : Prop :=
  exists ok payload,
    r = Response ok (Some payload) /\
    (entry_list payload = None \/ entry_list payload = Some []).

(** The body cannot be decoded. *)
Definition undecodable (r : Fetched) : Prop :=
  exists ok, r = Response ok None.

(** The [catch] clause ran. *)
Definition caught (currentResponse forecastResponse : Fetched)
    (c : Component) : Prop :=
  exists e, try_block currentResponse forecastResponse c = inl e.

(** ** Sample data *)

(** An entry with the given provider category and time, and no pollution. *)
Definition entry_of (category : float) (time : Z) : Entry :=
  {| main := mkMain category;
     components := mkComponents 0 0 0 0 0 0;
     dt := time |}.

(** A forecast of [n] hourly entries of category 2. *)
Definition hourly_forecast (n : nat) : list Entry :=
  map (fun i => entry_of 2 (3600 * Z.of_nat i)) (seq 0 n).

(** A network that answers the two requests with the given outcomes. *)
Definition answering (currentResponse forecastResponse : Fetched) : Network :=
  fun request =>
    match request with
    | AirPollution _ _ => currentResponse
    | AirPollutionForecast _ _ => forecastResponse
    end.

End Fetcher.

(* ================================================================== *)
(** * Location search *)
(* ================================================================== *)

Module Search.

Import JSString App.
#[local] Open Scope string_scope.

(** The geocoding endpoints: the postal code lookup
    [/geo/1.0/zip?zip=<zip>,US] and the free-text place lookup
    [/geo/1.0/direct?q=<q>&limit=<limit>].  [q] is the text before
    [encodeURIComponent], which is defined on every string of the model
    (it throws on lone surrogates only). *)
Inductive Endpoint : Type :=
| Zip (zip : string)
| Direct (q : string) (limit : nat).

(** The single object the postal code lookup answers with. *)
Record ZipMatch : Type := mkZipMatch {
  zip_name : string;
  zip_country : string;
  zip_lat : float;
  zip_lon : float
}.

(** A decoded body: an array of matches, or an object. *)
Inductive Data : Type :=
| ArrayData (items : list SearchResult)
| ObjectData (o : ZipMatch).

(** How a [fetch] of an endpoint ends: rejected, or a response with its
    status and its body, [None] when [response.json()] is rejected. *)
Inductive Reply : Type :=
| Failed
| Replied (status : nat) (json : option Data).

Definition Network : Type := Endpoint -> Reply.

(** [item => ({ name: item.name, state: item.state, country: item.country,
    lat: item.lat, lon: item.lon })]. *)
Definition pick (item : SearchResult) : SearchResult :=
  {| name := name item;
     state := state item;
     country := country item;
     lat := lat item;
     lon := lon item |}.

(** [Array.isArray(data) && data.length === 0]. *)
Definition isEmptyArray (data : Data) : bool :=
  match data with
  | ArrayData [] => true
  | _ => false
  end.

(** The [catch] and [finally] clauses. *)
Definition search_failed (c : Component) : Component :=
  let c := set_searchError
             "Error searching for location. Please try again." c in
  let c := set_searchResults [] c in
  set_isSearching false c.

(** The path that reports that nothing was found, with [finally]. *)
Definition nothing_found (c : Component) : Component :=
  let c := set_searchError
             "No locations found. Try a different search term." c in
  let c := set_searchResults [] c in
  set_isSearching false c.

(** [searchLocation(query)]: the component at the end of the call and the
    endpoints fetched, in order. *)
Definition searchLocation (fetch : Network) (query : string)
    (c : Component) : Component * list Endpoint :=
  if negb (truthy (trim query)) then (c, [])
  (* Only search if we have at least 3 characters, unless it's a zip code *)
  else if (String.length query <? 3)%nat && negb (test_digits query) then
    (set_searchResults [] c, [])
  else
    let c := set_isSearching true c in
    let c := set_searchError "" c in
    (* Check if input is a US zip code (5 digits) *)
    let endpoint :=
      if test_five_digits query then Zip query else Direct query 10 in
    match fetch endpoint with
    | Failed | Replied _ None => (search_failed c, [endpoint])
    | Replied status (Some data) =>
        if (status =? 404)%nat || isEmptyArray data then
          (* Try a more lenient search if no results found and it's not a
             zip code *)
          if negb (test_five_digits query) && (3 <=? String.length query)%nat
          then
            let lenientQuery := slice_0_minus1 query in
            let requests := [endpoint; Direct lenientQuery 10] in
            match fetch (Direct lenientQuery 10) with
            | Failed | Replied _ None => (search_failed c, requests)
            | Replied _ (Some (ArrayData lenientData)) =>
                (* Filter lenient results to only include relevant matches *)
                let filteredResults :=
                  filter (fun item =>
                            includes (toLowerCase (name item))
                                     (toLowerCase query))
                         lenientData in
                match filteredResults with
                | _ :: _ =>
                    let c := set_searchResults (map pick filteredResults) c in
                    (set_isSearching false c, requests)
                | [] => (nothing_found c, requests)
                end
            | Replied _ (Some (ObjectData _)) => (nothing_found c, requests)
            end
          else (nothing_found c, [endpoint])
        else
          match data with
          | ObjectData o =>
              (* Single result from zip code search *)
              let c := set_searchResults
                         [ {| name := zip_name o;
                              state := Some "";
                              country := zip_country o;
                              lat := zip_lat o;
                              lon := zip_lon o |} ] c in
              (set_isSearching false c, [endpoint])
          | ArrayData items =>
              (* Results from city search *)
              let c := set_searchResults (map pick items) c in
              (set_isSearching false c, [endpoint])
          end
    end.

(** ** Sample data *)

Definition paris : SearchResult :=
  {| name := "Paris"; state := Some "Ile-de-France"; country := "FR";
     lat := 48.8589%float; lon := 2.32%float |}.


(** A network on which every lookup finds nothing. *)
Definition empty_network : Network :=
  fun _ => Replied 200 (Some (ArrayData [])).


End Search.

(* ================================================================== *)
(** * Display helpers: text colour, descriptions, recommendations *)
(* ================================================================== *)

Module Display.

Import JSNumber Metrics.
#[local] Open Scope float_scope.
#[local] Open Scope string_scope.

(** ** getTextColorForAQI *)

Definition getTextColorForAQI (aqi : float) : string :=
  (* Use dark text for light backgrounds (Good and Moderate) *)
  if le aqi 100 then "#1f2937" (* gray-800 *)
  (* Use white text for darker backgrounds *)
  else "white".

(** ** getPollutantDescription *)

(** A chain of [if (key === ...) return ...]; the function falls off its
    end, returning [undefined] (here [None]), on any other key. *)
Definition getPollutantDescription (key : string) : option string :=
  if String.eqb key "PM2_5" then Some "Fine particles (≤2.5µm)"
  else if String.eqb key "PM10" then Some "Coarse particulate matter (≤10µm)"
  else if String.eqb key "NO2" then Some "Nitrogen dioxide"
  else if String.eqb key "SO2" then Some "Sulfur dioxide"
  else if String.eqb key "O3" then Some "Ozone"
  else if String.eqb key "CO" then Some "Carbon monoxide"
  else None.

(** ** getHealthRecommendations *)

Record Recommendations : Type := mkRecommendations {
  activity : string;
  sensitive : string;
  ventilation : string
}.

Definition getHealthRecommendations (aqi : float) : Recommendations :=
  if le aqi 50 then
    {| activity := "It's a great time for outdoor activities";
       sensitive := "No special precautions needed";
       ventilation := "Ideal for natural ventilation" |}
  else if le aqi 100 then
    {| activity := "Unusually sensitive people should consider reducing prolonged outdoor activities";
       sensitive := "Children and elderly should monitor their outdoor exposure";
       ventilation := "Good time for ventilation, but monitor local conditions" |}
  else if le aqi 150 then
    {| activity := "Reduce prolonged or heavy outdoor exertion";
       sensitive := "Children, elderly, and those with respiratory issues should limit outdoor exposure";
       ventilation := "Consider using air purifiers when ventilating" |}
  else if le aqi 200 then
    {| activity := "Avoid prolonged or heavy outdoor exertion";
       sensitive := "Children, elderly, and sensitive groups should avoid outdoor activities";
       ventilation := "Keep windows closed, use air purification" |}
  else if le aqi 300 then
    {| activity := "Avoid all outdoor activities";
       sensitive := "Stay indoors and keep activity levels low";
       ventilation := "Keep windows closed, run air purifiers if available" |}
  else
    {| activity := "Stay indoors and avoid physical activity";
       sensitive := "Everyone should avoid all outdoor exposure";
       ventilation := "Seal windows and doors, use air purification" |}.

(** The six labels of the regular scale. *)
Definition scale_labels : list string :=
  [ "Good"; "Moderate"; "Unhealthy for Sensitive Groups";
    "Unhealthy"; "Very Unhealthy"; "Hazardous" ].

End Display.

(* ================================================================== *)
(** * The chart: scale, redraws and theme changes *)
(* ================================================================== *)

Module View.

Import JSNumber Metrics App Fetcher.
#[local] Open Scope float_scope.
#[local] Open Scope string_scope.

(** ** More assignments to the script's variables *)

Definition set_darkMode (v : bool) (c : Component) : Component :=
  {| darkMode := v;
     loading := loading c;
     error := error c;
     chartCanvas := chartCanvas c;
     chart := chart c;
     currentAQI := currentAQI c;
     location := location c;
     locationInput := locationInput c;
     searchResults := searchResults c;
     isSearching := isSearching c;
     searchError := searchError c;
     pollutants := pollutants c;
     forecastData := forecastData c;
     lastUpdateTime := lastUpdateTime c;
     latitude := latitude c;
     longitude := longitude c |}.

Definition set_chartCanvas (v : bool) (c : Component) : Component :=
  {| darkMode := darkMode c;
     loading := loading c;
     error := error c;
     chartCanvas := v;
     chart := chart c;
     currentAQI := currentAQI c;
     location := location c;
     locationInput := locationInput c;
     searchResults := searchResults c;
     isSearching := isSearching c;
     searchError := searchError c;
     pollutants := pollutants c;
     forecastData := forecastData c;
     lastUpdateTime := lastUpdateTime c;
     latitude := latitude c;
     longitude := longitude c |}.

Definition set_location (v : string) (c : Component) : Component :=
  {| darkMode := darkMode c;
     loading := loading c;
     error := error c;
     chartCanvas := chartCanvas c;
     chart := chart c;
     currentAQI := currentAQI c;
     location := v;
     locationInput := locationInput c;
     searchResults := searchResults c;
     isSearching := isSearching c;
     searchError := searchError c;
     pollutants := pollutants c;
     forecastData := forecastData c;
     lastUpdateTime := lastUpdateTime c;
     latitude := latitude c;
     longitude := longitude c |}.

Definition set_locationInput (v : string) (c : Component) : Component :=
  {| darkMode := darkMode c;
     loading := loading c;
     error := error c;
     chartCanvas := chartCanvas c;
     chart := chart c;
     currentAQI := currentAQI c;
     location := location c;
     locationInput := v;
     searchResults := searchResults c;
     isSearching := isSearching c;
     searchError := searchError c;
     pollutants := pollutants c;
     forecastData := forecastData c;
     lastUpdateTime := lastUpdateTime c;
     latitude := latitude c;
     longitude := longitude c |}.

(** ** Math.max and Math.min *)

Definition isPositiveZero (a : float) : bool :=
  match classify a with PZero => true | _ => false end.

Definition isNegativeZero (a : float) : bool :=
  match classify a with NZero => true | _ => false end.

(** One turn of the loop of [Math.max]: NaN wins, [+0] counts as larger
    than [-0], otherwise the larger number is kept. *)
Definition max_step (highest number : float) : float :=
  if is_nan highest || is_nan number then nan
  else if isPositiveZero number && isNegativeZero highest then number
  else if gt number highest then number
  else highest.

Definition min_step (lowest number : float) : float :=
  if is_nan lowest || is_nan number then nan
  else if isNegativeZero number && isPositiveZero lowest then number
  else if lt number lowest then number
  else lowest.

(** [Math.max(...values)] starts from [-Infinity] and [Math.min(...values)]
    from [+Infinity]. *)
Definition Math_max (values : list float) : float :=
  fold_left max_step values neg_infinity.

Definition Math_min (values : list float) : float :=
  fold_left min_step values infinity.

(** ** The scale and the line colour of [updateChart] *)

(** The part of the chart configuration that [updateChart] computes from
    [aqi_data]: the suggested maximum and the step of the y axis, and the
    colour of the line. *)
Record Scale : Type := mkScale {
  suggestedMax : float;
  stepSize : float;
  borderColor : string
}.

Definition chartScale (aqi_data : list float) : Scale :=
  (* Calculate dynamic scale based on data *)
  let maxAQI := Math_max aqi_data in
  let minAQI := Math_min aqi_data in
  let range := maxAQI - minAQI in
  (* Set the max to be 20% above the highest value, but at least 50 *)
  let suggestedMax := Math_max [maxAQI * 1.2; Math_min [maxAQI + 20; 50]] in
  (* Set step size based on the range of values *)
  let stepSize :=
    if le range 20 then 5
    else if le range 50 then 10
    else if le range 100 then 20
    else 50 in
  {| suggestedMax := suggestedMax;
     stepSize := stepSize;
     borderColor := getAQIColor (Math_max aqi_data) |}.

(** The values [updateChart] plots for a list of entries. *)
Definition aqi_data_of (data : list Entry) : list float :=
  map (fun item => convertOpenWeatherMapAQI (aqi (main item))) data.

(** The chart [updateChart] draws for a list of entries. *)
Definition chart_of (data : list Entry) : Chart :=
  {| labels := map (fun item => (dt item * 1000)%Z) data;
     data := aqi_data_of data |}.

(** ** Redraws *)

(** The reactive statement [$: if (chartCanvas && forecastData.length > 0)
    updateChart(forecastData)], which Svelte runs again when [chartCanvas]
    or [forecastData] has changed. *)
Definition canvas_or_forecast_changed (c : Component) : Component :=
  if chartCanvas c && (0 <? List.length (forecastData c))%nat
  then updateChart (forecastData c) c
  else c.

(** Svelte binds the canvas element once the loading spinner gives way to
    the cards; the reactive statement follows. *)
Definition bind_canvas (c : Component) : Component :=
  canvas_or_forecast_changed (set_chartCanvas true c).

(** [toggleDarkMode()].  The class list of the document element, which it
    also updates, is outside the component. *)
Definition toggleDarkMode (c : Component) : Component :=
  let c := set_darkMode (negb (darkMode c)) c in
  match chart c with
  | Some _ => updateChart (forecastData c) c
  | None => c
  end.

(** The listener [watchSystemTheme] registers, on a change event whose
    [matches] is given. *)
Definition systemThemeChanged (matches : bool) (c : Component) : Component :=
  let c := set_darkMode matches c in
  match chart c with
  | Some _ => updateChart (forecastData c) c
  | None => c
  end.

(** The chart on the screen belongs to the stored forecast: there is a
    chart only over a bound canvas and a forecast that is not empty, and
    it is the chart of that forecast. *)
Definition chart_in_sync (c : Component) : Prop :=
  match chart c with
  | None => True
  | Some shown =>
      chartCanvas c = true /\ forecastData c <> [] /\
      shown = chart_of (forecastData c)
  end.

End View.

(* ================================================================== *)
(** * The displayed location: reverse lookup and selection *)
(* ================================================================== *)

Module Naming.

Import JSString App Fetcher View.
#[local] Open Scope string_scope.

(** The two requests of [fetchLocationName]: current weather and reverse
    geocoding (with [limit=1]) at the component's coordinates. *)
Inductive NameRequest : Type :=
| Weather (lat lon : float)
| Reverse (lat lon : float) (limit : nat).

(** What the script reads of the weather body: [data.name] and
    [data.sys.country], which may be [undefined]. *)
Record WeatherData : Type := mkWeatherData {
  weather_name : string;
  sys_country : option string
}.

(** One element of the reverse geocoding array, with its [state], which
    may be [undefined]. *)
Record ReverseMatch : Type := mkReverseMatch {
  geo_state : option string
}.

(** How a [fetch] ends: rejected, or a response with its [ok] flag and its
    body, [None] when [response.json()] is rejected. *)
Inductive Answer (A : Type) : Type :=
| NoAnswer
| Answered (ok : bool) (json : option A).

Arguments NoAnswer {A}.
Arguments Answered {A} ok json.

Record NameNetwork : Type := mkNameNetwork {
  weather : float -> float -> Answer WeatherData;
  reverse : float -> float -> Answer (list ReverseMatch)
}.

(** [value || ''] on a string that may be [undefined]. *)
Definition or_empty (value : option string) : string :=
  match value with
  | Some s => if truthy s then s else ""
  | None => ""
  end.

(** [parts.filter(Boolean)]: [undefined] and the empty string go. *)
Fixpoint filter_Boolean (parts : list (option string)) : list string :=
  match parts with
  | [] => []
  | Some s :: parts' =>
      if truthy s then s :: filter_Boolean parts' else filter_Boolean parts'
  | None :: parts' => filter_Boolean parts'
  end.

(** [parts.join(', ')]. *)
Definition join (parts : list string) : string := String.concat ", " parts.

(** The [catch] clause of [fetchLocationName]. *)
Definition unavailable (c : Component) : Component :=
  set_location "Location unavailable" c.

(** [fetchLocationName()]: the component at the end and the requests
    issued, in order.  The second request is made after the first body has
    been read. *)
Definition fetchLocationName (net : NameNetwork) (c : Component)
  : Component * list NameRequest :=
  let first := Weather (latitude c) (longitude c) in
  match weather net (latitude c) (longitude c) with
  | NoAnswer | Answered false _ | Answered true None =>
      (unavailable c, [first])
  | Answered true (Some data) =>
      (* Get state/region from additional API call *)
      let second := Reverse (latitude c) (longitude c) 1 in
      match reverse net (latitude c) (longitude c) with
      | NoAnswer | Answered false _ | Answered true None =>
          (unavailable c, [first; second])
      | Answered true (Some geoData) =>
          let state :=
            or_empty (match geoData with
                      | first_match :: _ => geo_state first_match
                      | [] => None
                      end) in
          (* Format location as "City, State, Country" *)
          let parts :=
            filter_Boolean [ Some (weather_name data); (* City *)
                             Some state;               (* State *)
                             sys_country data ]        (* Country *) in
          (set_location (join parts) c, [first; second])
      end
  end.

(** The text [selectLocation] first writes to [location]:
    [result.state ? `${name}, ${state}, ${country}` : `${name}, ${country}`]. *)
Definition selected_label (result : SearchResult) : string :=
  match state result with
  | Some s =>
      if truthy s
      then name result ++ ", " ++ s ++ ", " ++ country result
      else name result ++ ", " ++ country result
  | None => name result ++ ", " ++ country result
  end.

(** [selectLocation(result)].  The three calls under [Promise.all] write
    to different variables ([fetchLocationName] to [location],
    [fetchAirQuality] to the air quality variables, [updateMap] to the map
    objects, which the component leaves out), so the component at the end
    does not depend on how they interleave.  The result holds the requests
    of the first two. *)
Definition selectLocation (names : NameNetwork) (air : Network)
    (result : SearchResult) (c : Component)
  : Component * (list NameRequest * list Request) :=
  let c := set_location (selected_label result) c in
  (* Update coordinates and fetch new data *)
  let c := set_latitude (lat result) c in
  let c := set_longitude (lon result) c in
  (* Clear search *)
  let c := set_locationInput "" c in
  let c := set_searchResults [] c in
  (* Fetch new data for selected location *)
  let '(c, name_requests) := fetchLocationName names c in
  let '(c, air_requests) := fetchAirQuality air c in
  (c, (name_requests, air_requests)).

(** ** Sample data *)

(** A network that knows Paris. *)
Definition paris_names : NameNetwork :=
  {| weather := fun _ _ =>
       Answered true (Some (mkWeatherData "Paris" (Some "FR")));
     reverse := fun _ _ =>
       Answered true (Some [mkReverseMatch (Some "Ile-de-France")]) |}.

(** A network on which every request is rejected. *)
Definition no_names : NameNetwork :=
  {| weather := fun _ _ => NoAnswer;
     reverse := fun _ _ => NoAnswer |}.

End Naming.

(* ================================================================== *)
(** * Facts: the order on JavaScript numbers *)
(* ================================================================== *)

Module NumberFacts.
Import JSNumber.
#[local] Open Scope float_scope.

(** ** The order on the specification floats *)

(** Comparison of two finite values of the same sign: by exponent, then by
    mantissa. *)
Lemma cmp_exp_mant_Lt (e1 e2 : Z) (m1 m2 : positive) :
  match (e1 ?= e2)%Z with
  | Lt => Lt | Gt => Gt | Eq => Pos.compare_cont Eq m1 m2
  end = Lt <-> (e1 < e2 \/ (e1 = e2 /\ (m1 < m2)%positive))%Z.
Proof.
  change (Pos.compare_cont Eq m1 m2) with (m1 ?= m2)%positive.
  destruct (Z.compare_spec e1 e2) as [He|He|He];
    destruct (Pos.compare_spec m1 m2) as [Hm|Hm|Hm];
    split; intros H; try discriminate; try reflexivity; try lia.
Qed.

Lemma cmp_exp_mant_Eq (e1 e2 : Z) (m1 m2 : positive) :
  match (e1 ?= e2)%Z with
  | Lt => Lt | Gt => Gt | Eq => Pos.compare_cont Eq m1 m2
  end = Eq <-> (e1 = e2 /\ m1 = m2).
Proof.
  change (Pos.compare_cont Eq m1 m2) with (m1 ?= m2)%positive.
  destruct (Z.compare_spec e1 e2) as [He|He|He];
    destruct (Pos.compare_spec m1 m2) as [Hm|Hm|Hm];
    split; intros H; try discriminate; try reflexivity; try lia;
    try (destruct H; lia); try (split; lia).
Qed.

Lemma rank_lt_trans a b c : rank_lt a b -> rank_lt b c -> rank_lt a c.
Proof.
  destruct a, b, c; simpl; intros; try tauto; lia.
Qed.

Lemma rank_lt_irrefl a : ~ rank_lt a a.
Proof. destruct a; simpl; lia. Qed.

Lemma SFcompare_Lt x y :
  SFcompare x y = Some Lt <->
  exists a b, rank_of x = Some a /\ rank_of y = Some b /\ rank_lt a b.
Proof.
  split.
  - intros H.
    destruct x as [sx|sx| |sx mx ex], y as [sy|sy| |sy my ey];
      simpl in H; try discriminate;
      try destruct sx; try destruct sy; simpl in H; try discriminate;
      try (eexists; eexists; repeat split; simpl; exact I).
    + injection H as H.
      destruct (Z.compare_spec ex ey); simpl in H; try discriminate;
        eexists; eexists; repeat split; simpl; try lia.
      right. split; [assumption|].
      change (Pos.compare_cont Eq mx my) with (mx ?= my)%positive in H.
      destruct (Pos.compare_spec mx my); simpl in H; try discriminate. lia.
    + injection H as H.
      apply cmp_exp_mant_Lt in H.
      eexists; eexists; repeat split; simpl; exact H.
  - intros (a & b & Ha & Hb & Hlt).
    destruct x as [sx|sx| |sx mx ex], y as [sy|sy| |sy my ey];
      simpl in Ha, Hb; try discriminate;
      try destruct sx; try destruct sy;
      injection Ha as <-; injection Hb as <-; simpl in Hlt;
      try contradiction; try reflexivity.
    + simpl. f_equal.
      destruct (Z.compare_spec ex ey); try lia; try reflexivity.
      change (Pos.compare_cont Eq mx my) with (mx ?= my)%positive.
      destruct (Pos.compare_spec mx my); simpl; try lia; reflexivity.
    + simpl. f_equal. apply cmp_exp_mant_Lt. exact Hlt.
Qed.

Lemma SFcompare_Eq x y :
  SFcompare x y = Some Eq <->
  exists a, rank_of x = Some a /\ rank_of y = Some a.
Proof.
  split.
  - intros H.
    destruct x as [sx|sx| |sx mx ex], y as [sy|sy| |sy my ey];
      simpl in H; try discriminate;
      try destruct sx; try destruct sy; simpl in H; try discriminate;
      try (eexists; split; reflexivity); injection H as H.
    + assert (H' : match (ex ?= ey)%Z with
                   | Lt => Lt | Gt => Gt
                   | Eq => Pos.compare_cont Eq mx my end = Eq).
      { destruct (ex ?= ey)%Z; try discriminate.
        destruct (Pos.compare_cont Eq mx my); try discriminate.
        reflexivity. }
      apply cmp_exp_mant_Eq in H' as [-> ->].
      eexists; split; reflexivity.
    + apply cmp_exp_mant_Eq in H as [-> ->].
      eexists; split; reflexivity.
  - intros (a & Ha & Hb).
    destruct x as [sx|sx| |sx mx ex], y as [sy|sy| |sy my ey];
      simpl in Ha, Hb; try discriminate;
      try destruct sx; try destruct sy;
      injection Ha as <-; try discriminate; try reflexivity;
      injection Hb as -> ->; simpl; f_equal.
    + rewrite Z.compare_refl.
      change (Pos.compare_cont Eq mx mx) with (mx ?= mx)%positive.
      rewrite Pos.compare_refl. reflexivity.
    + apply cmp_exp_mant_Eq. split; reflexivity.
Qed.

Lemma lt_rank a b :
  lt a b = true <->
  exists ra rb, frank a = Some ra /\ frank b = Some rb /\ rank_lt ra rb.
Proof.
  unfold lt, frank. rewrite ltb_spec. unfold SFltb.
  rewrite <- SFcompare_Lt.
  destruct (SFcompare (Prim2SF a) (Prim2SF b)) as [[ | | ]|];
    split; intros H; try discriminate; reflexivity.
Qed.

Lemma eq_rank a b :
  strict_eq a b = true <->
  exists r, frank a = Some r /\ frank b = Some r.
Proof.
  unfold strict_eq, frank. rewrite eqb_spec. unfold SFeqb.
  rewrite <- SFcompare_Eq.
  destruct (SFcompare (Prim2SF a) (Prim2SF b)) as [[ | | ]|];
    split; intros H; try discriminate; reflexivity.
Qed.

Lemma le_rank a b :
  le a b = true <->
  exists ra rb, frank a = Some ra /\ frank b = Some rb /\
                (rank_lt ra rb \/ ra = rb).
Proof.
  unfold le, frank. rewrite leb_spec. unfold SFleb.
  destruct (SFcompare (Prim2SF a) (Prim2SF b)) as [[ | | ]|] eqn:E.
  - split; [intros _|reflexivity].
    apply SFcompare_Eq in E as (r & Ha & Hb).
    exists r, r. auto.
  - split; [intros _|reflexivity].
    apply SFcompare_Lt in E as (ra & rb & Ha & Hb & Hlt).
    exists ra, rb. auto.
  - split; [discriminate|].
    intros (ra & rb & Ha & Hb & [Hlt| ->]).
    + assert (E' : SFcompare (Prim2SF a) (Prim2SF b) = Some Lt).
      { apply SFcompare_Lt. exists ra, rb. auto. }
      congruence.
    + assert (E' : SFcompare (Prim2SF a) (Prim2SF b) = Some Eq).
      { apply SFcompare_Eq. exists rb. auto. }
      congruence.
  - split; [discriminate|].
    intros (ra & rb & Ha & Hb & [Hlt| ->]).
    + assert (E' : SFcompare (Prim2SF a) (Prim2SF b) = Some Lt).
      { apply SFcompare_Lt. exists ra, rb. auto. }
      congruence.
    + assert (E' : SFcompare (Prim2SF a) (Prim2SF b) = Some Eq).
      { apply SFcompare_Eq. exists rb. auto. }
      congruence.
Qed.

Lemma rank_lt_total a b : rank_lt a b \/ a = b \/ rank_lt b a.
Proof.
  destruct a as [ |e1 m1| |e1 m1| ], b as [ |e2 m2| |e2 m2| ];
    simpl; auto.
  - destruct (Z.compare_spec e1 e2); [|lia|lia].
    destruct (Pos.compare_spec m1 m2); [|lia|lia].
    subst. auto.
  - destruct (Z.compare_spec e1 e2); [|lia|lia].
    destruct (Pos.compare_spec m1 m2); [|lia|lia].
    subst. auto.
Qed.

(** Transitivity, in the three forms the proofs below use. *)
Lemma lt_trans a b c : lt a b = true -> lt b c = true -> lt a c = true.
Proof.
  rewrite !lt_rank.
  intros (ra & rb & Ha & Hb & H1) (rb' & rc & Hb' & Hc & H2).
  assert (rb' = rb) by congruence. subst rb'.
  exists ra, rc. eauto using rank_lt_trans.
Qed.

Lemma lt_le_trans a b c : lt a b = true -> le b c = true -> lt a c = true.
Proof.
  rewrite !lt_rank, le_rank.
  intros (ra & rb & Ha & Hb & H1) (rb' & rc & Hb' & Hc & H2).
  assert (rb' = rb) by congruence. subst rb'.
  exists ra, rc. destruct H2 as [H2| <-]; eauto using rank_lt_trans.
Qed.

Lemma le_lt_trans a b c : le a b = true -> lt b c = true -> lt a c = true.
Proof.
  rewrite !lt_rank, le_rank.
  intros (ra & rb & Ha & Hb & H1) (rb' & rc & Hb' & Hc & H2).
  assert (rb' = rb) by congruence. subst rb'.
  exists ra, rc. destruct H1 as [H1| ->]; eauto using rank_lt_trans.
Qed.

Lemma le_trans a b c : le a b = true -> le b c = true -> le a c = true.
Proof.
  rewrite !le_rank.
  intros (ra & rb & Ha & Hb & H1) (rb' & rc & Hb' & Hc & H2).
  assert (rb' = rb) by congruence. subst rb'.
  exists ra, rc. repeat split; trivial.
  destruct H1 as [H1| ->], H2 as [H2| <-]; eauto using rank_lt_trans.
Qed.

Lemma lt_irrefl a : lt a a = false.
Proof.
  destruct (lt a a) eqn:E; [|reflexivity].
  apply lt_rank in E as (ra & rb & Ha & Hb & H).
  assert (ra = rb) by congruence. subst.
  now apply rank_lt_irrefl in H.
Qed.

Lemma lt_le a b : lt a b = true -> le a b = true.
Proof.
  rewrite lt_rank, le_rank.
  intros (ra & rb & Ha & Hb & H). exists ra, rb. auto.
Qed.

Lemma eq_le a b : strict_eq a b = true -> le a b = true.
Proof.
  rewrite eq_rank, le_rank.
  intros (r & Ha & Hb). exists r, r. auto.
Qed.

Lemma lt_not_ge a b : lt a b = true -> le b a = false.
Proof.
  intros H. destruct (le b a) eqn:E; [|reflexivity].
  pose proof (lt_le_trans _ _ _ H E) as H'.
  now rewrite lt_irrefl in H'.
Qed.

Lemma le_not_gt a b : le a b = true -> lt b a = false.
Proof.
  intros H. destruct (lt b a) eqn:E; [|reflexivity].
  pose proof (le_lt_trans _ _ _ H E) as H'.
  now rewrite lt_irrefl in H'.
Qed.

Lemma lt_not_eq a b : lt a b = true -> strict_eq b a = false.
Proof.
  intros H. destruct (strict_eq b a) eqn:E; [|reflexivity].
  apply eq_le in E. now rewrite (lt_not_ge _ _ H) in E.
Qed.

Lemma lt_not_eq' a b : lt a b = true -> strict_eq a b = false.
Proof.
  intros H. destruct (strict_eq a b) eqn:E; [|reflexivity].
  apply eq_rank in E as (r & Ha & Hb).
  apply lt_rank in H as (ra & rb & Ha' & Hb' & H).
  assert (ra = rb) by congruence. subst.
  now apply rank_lt_irrefl in H.
Qed.

(** Two numbers that are not NaN are comparable. *)
Lemma not_lt_le a b :
  is_nan a = false -> is_nan b = false -> lt a b = false -> le b a = true.
Proof.
  unfold is_nan. intros Ha Hb H.
  apply negb_false_iff in Ha, Hb.
  apply eq_rank in Ha as (ra & Ha & _), Hb as (rb & Hb & _).
  apply le_rank. exists rb, ra. repeat split; trivial.
  destruct (rank_lt_total ra rb) as [Hlt|[->|Hgt]]; auto.
  assert (E : lt a b = true) by (apply lt_rank; eauto).
  congruence.
Qed.

(** [===] against a constant other than zero identifies the value. *)
Lemma eq_leibniz a b :
  strict_eq a b = true -> frank b <> Some RZero -> a = b.
Proof.
  intros H Hz. apply eq_rank in H as (r & Ha & Hb).
  apply Prim2SF_inj. unfold frank in *.
  destruct (Prim2SF a) as [sa|sa| |sa ma ea], (Prim2SF b) as [sb|sb| |sb mb eb];
    simpl in *; try discriminate;
    try destruct sa; try destruct sb; try congruence.
Qed.

(** Two numbers with different bit-level readings are different. *)
Lemma distinct_numbers (a b : float) :
  SFeqb (Prim2SF a) (Prim2SF b) = false -> is_nan a = false -> a <> b.
Proof.
  intros H Ha ->. unfold is_nan in Ha. apply negb_false_iff in Ha.
  rewrite eqb_spec in Ha. congruence.
Qed.

(** ** Division does not invent NaN *)

(** The rounding of the specification keeps a mantissa that is not
    negative from becoming negative, so it never yields NaN. *)
Lemma shr_1_nonneg (mrs : shr_record) :
  (0 <= shr_m mrs)%Z -> (0 <= shr_m (shr_1 mrs))%Z.
Proof.
  destruct mrs as [m r s]. simpl.
  destruct m as [|[p|p|]|[p|p|]]; simpl; lia.
Qed.

Lemma iter_shr_1_nonneg (p : positive) :
  forall mrs : shr_record,
    (0 <= shr_m mrs)%Z -> (0 <= shr_m (iter_pos shr_1 p mrs))%Z.
Proof.
  induction p as [p IH|p IH|]; intros mrs H; simpl.
  - apply IH, IH, shr_1_nonneg, H.
  - apply IH, IH, H.
  - apply shr_1_nonneg, H.
Qed.

Lemma shr_fexp_nonneg (m e : Z) (l : location) :
  (0 <= m)%Z -> (0 <= shr_m (fst (shr_fexp prec emax m e l)))%Z.
Proof.
  intros H. unfold shr_fexp, shr.
  assert (H0 : (0 <= shr_m (shr_record_of_loc m l))%Z)
    by (destruct l as [|[ | | ]]; exact H).
  destruct (_ - e)%Z as [|p|p]; simpl; trivial.
  apply iter_shr_1_nonneg, H0.
Qed.

Lemma round_nearest_even_nonneg (m : Z) (l : location) :
  (0 <= m)%Z -> (0 <= round_nearest_even m l)%Z.
Proof.
  intros H. destruct l as [|[ | | ]]; simpl; try lia.
  destruct (Z.even m); lia.
Qed.

Lemma binary_round_aux_not_nan (sx : bool) (mx ex : Z) (lx : location) :
  (0 <= mx)%Z -> binary_round_aux prec emax sx mx ex lx <> S754_nan.
Proof.
  intros H. unfold binary_round_aux.
  pose proof (shr_fexp_nonneg mx ex lx H) as H1.
  destruct (shr_fexp prec emax mx ex lx) as [mrs' e'].
  simpl in H1.
  pose proof (shr_fexp_nonneg _ e' loc_Exact
                (round_nearest_even_nonneg _ (loc_of_shr_record mrs') H1))
    as H2.
  destruct (shr_fexp prec emax _ e' loc_Exact) as [mrs'' e''].
  simpl in H2.
  destruct (shr_m mrs'') as [|m|m]; try discriminate; [|lia].
  destruct (e'' <=? emax - prec)%Z; discriminate.
Qed.

Lemma SFdiv_by_finite_not_nan (x : spec_float) (sy : bool) (my : positive)
    (ey : Z) :
  x <> S754_nan -> SF64div x (S754_finite sy my ey) <> S754_nan.
Proof.
  intros Hx. unfold SF64div, SFdiv.
  destruct x as [sx|sx| |sx mx ex]; try discriminate; [now contradiction Hx|].
  unfold SFdiv_core_binary.
  set (e' := Z.min _ _). set (m' := match (ex - ey - e')%Z with
                                     | Z0 => Z.pos mx
                                     | Z.pos _ => Z.shiftl (Z.pos mx) (ex - ey - e')
                                     | Z.neg _ => 0%Z end).
  assert (Hm' : (0 <= m')%Z).
  { subst m'. destruct (ex - ey - e')%Z; try lia.
    apply Z.shiftl_nonneg. lia. }
  pose proof (Z.div_pos m' (Z.pos my) Hm' ltac:(lia)) as Hq.
  unfold Z.div in Hq.
  destruct (Z.div_eucl m' (Z.pos my)) as [q r]. simpl in Hq.
  apply binary_round_aux_not_nan. exact Hq.
Qed.

Lemma is_nan_spec (a : float) : is_nan a = true <-> Prim2SF a = S754_nan.
Proof.
  unfold is_nan. fold (strict_eq a a). rewrite negb_true_iff.
  split.
  - intros H. destruct (Prim2SF a) as [s|s| |s m e] eqn:E; trivial;
      assert (H' : strict_eq a a = true)
        by (apply eq_rank; unfold frank; rewrite E;
            try destruct s; eexists; split; reflexivity);
      congruence.
  - intros E. destruct (strict_eq a a) eqn:H; [|reflexivity].
    apply eq_rank in H as (r & H & _). unfold frank in H.
    rewrite E in H. discriminate.
Qed.

(** A number divided by a finite constant other than zero is a number. *)
Lemma div_by_finite_not_nan (v g : float) :
  is_nan v = false ->
  (exists s m e, Prim2SF g = S754_finite s m e) ->
  is_nan (v / g) = false.
Proof.
  intros Hv (s & m & e & Hg).
  destruct (is_nan (v / g)) eqn:E; [|reflexivity].
  apply is_nan_spec in E. rewrite div_spec, Hg in E.
  apply SFdiv_by_finite_not_nan in E; [contradiction|].
  intros Hnan. apply is_nan_spec in Hnan. congruence.
Qed.

Lemma lt_not_nan_r a b : lt a b = true -> is_nan b = false.
Proof.
  intros H. apply lt_rank in H as (ra & rb & _ & Hb & _).
  destruct (is_nan b) eqn:E; [|reflexivity].
  apply is_nan_spec in E. unfold frank in Hb. rewrite E in Hb. discriminate.
Qed.

Lemma not_le_lt a b :
  is_nan a = false -> is_nan b = false -> le a b = false -> lt b a = true.
Proof.
  unfold is_nan. intros Ha Hb H.
  apply negb_false_iff in Ha, Hb.
  apply eq_rank in Ha as (ra & Ha & _), Hb as (rb & Hb & _).
  apply lt_rank. exists rb, ra. repeat split; trivial.
  destruct (rank_lt_total rb ra) as [Hlt|[Heq|Hgt]]; trivial.
  - assert (E : le a b = true)
      by (apply le_rank; exists ra, rb; repeat split; auto).
    congruence.
  - assert (E : le a b = true)
      by (apply le_rank; exists ra, rb; repeat split; auto).
    congruence.
Qed.

End NumberFacts.

(* ================================================================== *)
(** * Facts: derived metrics *)
(* ================================================================== *)

Module MetricsFacts.

Import JSNumber NumberFacts Metrics.
#[local] Open Scope float_scope.
#[local] Open Scope string_scope.

(** ** The conversion table *)

Lemma property_conversion_none (v : float) :
  ~ In v [1; 2; 3; 4; 5] -> property conversion v = None.
Proof.
  intros Hout. unfold conversion, property.
  repeat match goal with
  | |- (if strict_eq v ?c then _ else _) = None =>
      let E := fresh "E" in
      destruct (strict_eq v c) eqn:E;
      [ exfalso; apply Hout;
        apply eq_leibniz in E; [subst v; simpl; tauto | vm_compute; discriminate]
      | ]
  end.
  reflexivity.
Qed.

(** C2.  The provider categories 1 to 5 are sent to 20, 60, 120, 180 and
    250, and every other number is returned unchanged. *)
Theorem convert_table_then_identity :
  convertOpenWeatherMapAQI 1 = 20 /\
  convertOpenWeatherMapAQI 2 = 60 /\
  convertOpenWeatherMapAQI 3 = 120 /\
  convertOpenWeatherMapAQI 4 = 180 /\
  convertOpenWeatherMapAQI 5 = 250 /\
  forall v : float,
    ~ In v [1; 2; 3; 4; 5] -> convertOpenWeatherMapAQI v = v.
Proof.
  repeat (split; [reflexivity|]).
  intros v Hout. unfold convertOpenWeatherMapAQI.
  rewrite (property_conversion_none v Hout). reflexivity.
Qed.

(** The identity fallback of C2 at the numbers 0, 6, 2.5 and 500. *)
Lemma convert_table_then_identity_witness :
  convertOpenWeatherMapAQI 0 = 0 /\
  convertOpenWeatherMapAQI 6 = 6 /\
  convertOpenWeatherMapAQI 2.5 = 2.5 /\
  convertOpenWeatherMapAQI 500 = 500.
Proof.
  pose proof convert_table_then_identity as (_ & _ & _ & _ & _ & Hid).
  repeat split; apply Hid; simpl;
    intros H; repeat (destruct H as [H|H]; [now apply distinct_numbers in H|]);
    exact H.
Defined.

(** ** Colour and label bands *)

(** A value above 5 is outside the category range. *)
Lemma above_five_not_category (v : float) :
  lt 5 v = true -> ge v 1 && le v 5 = false.
Proof.
  intros H. unfold ge. fold (le 1 v) (le v 5).
  rewrite (lt_not_ge _ _ H). apply andb_false_r.
Qed.

Ltac band_edge :=
  match goal with
  | H : lt ?a ?v = true |- context [le ?v ?b] =>
      first
        [ rewrite (lt_not_ge a v H)
        | let L := fresh "L" in
          assert (L : lt b v = true)
            by (apply (le_lt_trans b a v); [reflexivity | exact H]);
          rewrite (lt_not_ge b v L); clear L ]
  | H : le ?v ?b = true |- context [le ?v ?b] => rewrite H
  end.

(** C1, on the code.  Outside the provider-category range 1 to 5 the colour
    and the label change at the same edges 50, 100, 150, 200 and 300; a
    value above 50 is always outside that range.  In particular 50 is
    "Good" and green, 51 is "Moderate" and yellow, 500 is "Hazardous" and
    gray.  The values 1 to 5 are read as provider categories. *)
Theorem color_and_label_band_together :
  (forall v : float,
      (le v 50 = true -> ge v 1 && le v 5 = false ->
       getAQIColor v = "#22c55e" /\ getAQIDescription v = "Good") /\
      (lt 50 v = true -> le v 100 = true ->
       getAQIColor v = "#eab308" /\ getAQIDescription v = "Moderate") /\
      (lt 100 v = true -> le v 150 = true ->
       getAQIColor v = "#f97316" /\
       getAQIDescription v = "Unhealthy for Sensitive Groups") /\
      (lt 150 v = true -> le v 200 = true ->
       getAQIColor v = "#ef4444" /\ getAQIDescription v = "Unhealthy") /\
      (lt 200 v = true -> le v 300 = true ->
       getAQIColor v = "#8F3F97" /\ getAQIDescription v = "Very Unhealthy") /\
      (lt 300 v = true ->
       getAQIColor v = "#6b7280" /\ getAQIDescription v = "Hazardous")) /\
  (getAQIColor 50 = "#22c55e" /\ getAQIDescription 50 = "Good") /\
  (getAQIColor 51 = "#eab308" /\ getAQIDescription 51 = "Moderate") /\
  (getAQIColor 500 = "#6b7280" /\ getAQIDescription 500 = "Hazardous") /\
  map (fun v => (getAQIColor v, getAQIDescription v)) [1; 2; 3; 4; 5]
  = [ ("#22c55e", "Good"); ("#eab308", "Fair"); ("#f97316", "Moderate");
      ("#ef4444", "Poor"); ("#8F3F97", "Very Poor") ].
Proof.
  split; [|repeat split; reflexivity].
  intros v. repeat apply conj.
  all: unfold getAQIColor, getAQIDescription.
  1: intros H50 Hcat; rewrite Hcat, H50; split; reflexivity.
  all: intros Hlo.
  all: try intros Hhi.
  all: rewrite (above_five_not_category v)
         by (eapply (lt_trans 5); [|exact Hlo]; reflexivity).
  all: repeat band_edge.
  all: split; reflexivity.
Qed.

(** The band clauses of C1 at 75 (between 50 and 100) and at 0 (outside
    the category range). *)
Lemma color_and_label_band_together_witness :
  (getAQIColor 75 = "#eab308" /\ getAQIDescription 75 = "Moderate") /\
  (getAQIColor 0 = "#22c55e" /\ getAQIDescription 0 = "Good").
Proof.
  pose proof (proj1 color_and_label_band_together) as H.
  split.
  - apply (proj1 (proj2 (H 75))); reflexivity.
  - apply (proj1 (H 0)); reflexivity.
Defined.

(** C1 as stated fails inside the category range: 2 lies in the band 0 to
    50, and is labelled "Fair" and coloured yellow there, not "Good" and
    green. *)
Lemma category_two_is_fair_and_yellow :
  le 0 2 = true /\ le 2 50 = true /\
  getAQIColor 2 = "#eab308" /\ getAQIDescription 2 = "Fair" /\
  getAQIColor 2 <> "#22c55e" /\ getAQIDescription 2 <> "Good".
Proof. repeat split; try reflexivity; discriminate. Qed.

(** C9.  A number strictly between 1 and 5 that is not an integer passes
    the range test and matches no [case]: the colour is the fallback gray
    and the label is "Unknown". *)
Theorem fractional_category_is_unknown (v : float) :
  lt 1 v = true -> lt v 5 = true -> isInteger v = false ->
  getAQIColor v = "#6b7280" /\ getAQIDescription v = "Unknown".
Proof.
  intros H1 H5 Hfrac.
  assert (Hrange : ge v 1 && le v 5 = true).
  { unfold ge. fold (le 1 v).
    rewrite (lt_le _ _ H1), (lt_le _ _ H5). reflexivity. }
  assert (Hcase : forall c, isInteger c = true -> frank c <> Some RZero ->
                            strict_eq v c = false).
  { intros c Hc Hz. destruct (strict_eq v c) eqn:E; [|reflexivity].
    apply eq_leibniz in E; [|exact Hz]. subst v. congruence. }
  unfold getAQIColor, getAQIDescription. rewrite Hrange.
  rewrite !Hcase by (vm_compute; first [reflexivity | discriminate]).
  split; reflexivity.
Qed.

(** C9 at 2.5. *)
Lemma fractional_category_is_unknown_witness :
  getAQIColor 2.5 = "#6b7280" /\ getAQIDescription 2.5 = "Unknown".
Proof.
  apply (fractional_category_is_unknown 2.5); reflexivity.
Defined.

(** ** The dominant pollutant *)

(** What the [forEach] loop leaves in [(maxRatio, dominant)]: either no
    entry exceeded the starting maximum and the pair is unchanged, or the
    pair holds the entry at some position [i], whose ratio exceeds the
    starting maximum, is reached by no earlier entry and is exceeded by no
    entry at all. *)
Lemma visit_all (l : list (string * float)) :
  forall (maxRatio : float) (dominant : option string),
    (fold_left visit l (maxRatio, dominant) = (maxRatio, dominant) /\
     forall k v, In (k, v) l -> gt (ratio k v) maxRatio = false)
    \/
    (exists i k v,
        nth_error l i = Some (k, v) /\
        fold_left visit l (maxRatio, dominant) = (ratio k v, Some k) /\
        gt (ratio k v) maxRatio = true /\
        (forall j kj vj, nth_error l j = Some (kj, vj) -> (j < i)%nat ->
                         le (ratio k v) (ratio kj vj) = false) /\
        (forall j kj vj, nth_error l j = Some (kj, vj) ->
                         lt (ratio k v) (ratio kj vj) = false)).
Proof.
  induction l as [|[k0 v0] l IH]; intros maxRatio dominant.
  - left. split; [reflexivity|]. intros k v [].
  - simpl fold_left. unfold visit at 2.
    destruct (gt (ratio k0 v0) maxRatio) eqn:Hhead.
    + (* the head becomes the running maximum *)
      right.
      destruct (IH (ratio k0 v0) (Some k0))
        as [[Hsame Hnone] | (i & k & v & Hi & Hres & Hgt & Hbefore & Hall)].
      * exists 0%nat, k0, v0. repeat split; trivial.
        -- intros j kj vj _ Hj. lia.
        -- intros [|j] kj vj Hj; simpl in Hj.
           ++ injection Hj as <- <-. apply lt_irrefl.
           ++ apply nth_error_In in Hj. apply (Hnone _ _ Hj).
      * exists (S i), k, v. repeat split; trivial.
        -- unfold gt in *. fold (lt maxRatio (ratio k0 v0)) in Hhead.
           fold (lt (ratio k0 v0) (ratio k v)) in Hgt.
           fold (lt maxRatio (ratio k v)).
           exact (lt_trans _ _ _ Hhead Hgt).
        -- intros [|j] kj vj Hj Hlt; simpl in Hj.
           ++ injection Hj as <- <-. apply lt_not_ge. exact Hgt.
           ++ apply (Hbefore j); [exact Hj | lia].
        -- intros [|j] kj vj Hj; simpl in Hj.
           ++ injection Hj as <- <-. apply le_not_gt, lt_le. exact Hgt.
           ++ apply (Hall j). exact Hj.
    + (* the head is skipped *)
      destruct (IH maxRatio dominant)
        as [[Hsame Hnone] | (i & k & v & Hi & Hres & Hgt & Hbefore & Hall)].
      * left. split; [exact Hsame|].
        intros k v [Heq | Hin]; [injection Heq as <- <-; exact Hhead|].
        apply (Hnone _ _ Hin).
      * right. exists (S i), k, v.
        assert (Hk0 : le (ratio k v) (ratio k0 v0) = false).
        { destruct (le (ratio k v) (ratio k0 v0)) eqn:E; [|reflexivity].
          unfold gt in Hhead, Hgt.
          fold (lt maxRatio (ratio k v)) in Hgt.
          pose proof (lt_le_trans _ _ _ Hgt E) as Habs.
          unfold lt in Habs. congruence. }
        repeat split; trivial.
        -- intros [|j] kj vj Hj Hlt; simpl in Hj.
           ++ injection Hj as <- <-. exact Hk0.
           ++ apply (Hbefore j); [exact Hj | lia].
        -- intros [|j] kj vj Hj; simpl in Hj.
           ++ injection Hj as <- <-.
              destruct (lt (ratio k v) (ratio k0 v0)) eqn:E; [|reflexivity].
              apply lt_le in E. congruence.
           ++ apply (Hall j). exact Hj.
Qed.

(** The ratio of a concentration that is a number is a number. *)
Lemma ratio_not_nan (p : Pollutants) (k : string) (v : float) :
  In (k, v) (entries p) -> is_nan v = false -> is_nan (ratio k v) = false.
Proof.
  intros Hin Hv. simpl in Hin.
  repeat (destruct Hin as [Hin|Hin];
          [ injection Hin as <- <-;
            apply (div_by_finite_not_nan _ _ Hv);
            vm_compute; eexists; eexists; eexists; reflexivity | ]).
  destruct Hin.
Qed.

(** C6, on the code.  When some pollutant of the reading has a strictly
    positive ratio to its guideline, the function returns the pollutant at
    the first position of the enumeration PM2_5, PM10, NO2, SO2, O3, CO
    whose ratio is largest: no pollutant has a larger ratio and no earlier
    pollutant has a ratio as large; put positively, the ratio of every
    concentration that is a number is at most the returned one's, and
    strictly less at an earlier position.  The guidelines are 15, 45, 25,
    40, 100 and 4000, and the example reading gives PM2_5. *)
Theorem dominant_is_first_largest_ratio :
  (forall p : Pollutants,
      (exists k v, In (k, v) (entries p) /\ gt (ratio k v) 0 = true) ->
      exists i k v,
        nth_error (entries p) i = Some (k, v) /\
        getDominantPollutant (Some p) = Some k /\
        forall j kj vj,
          nth_error (entries p) j = Some (kj, vj) ->
          lt (ratio k v) (ratio kj vj) = false /\
          ((j < i)%nat -> le (ratio k v) (ratio kj vj) = false) /\
          (is_nan vj = false ->
           le (ratio kj vj) (ratio k v) = true /\
           ((j < i)%nat -> lt (ratio kj vj) (ratio k v) = true))) /\
  (forall p : Pollutants,
      map fst (entries p) = ["PM2_5"; "PM10"; "NO2"; "SO2"; "O3"; "CO"]) /\
  (forall v : float,
      ratio "PM2_5" v = v / 15 /\ ratio "PM10" v = v / 45 /\
      ratio "NO2" v = v / 25 /\ ratio "SO2" v = v / 40 /\
      ratio "O3" v = v / 100 /\ ratio "CO" v = v / 4000) /\
  getDominantPollutant (Some example_reading) = Some "PM2_5".
Proof.
  repeat apply conj; try reflexivity.
  - intros p (k0 & v0 & Hin & Hpos).
    unfold getDominantPollutant.
    destruct (visit_all (entries p) 0 None)
      as [[_ Hnone] | (i & k & v & Hi & Hres & Hgt & Hbefore & Hall)].
    + rewrite (Hnone _ _ Hin) in Hpos. discriminate.
    + exists i, k, v. rewrite Hres. repeat apply conj; trivial.
      intros j kj vj Hj.
      assert (Hk : is_nan (ratio k v) = false)
        by (apply (lt_not_nan_r 0); exact Hgt).
      repeat apply conj.
      * apply (Hall j). exact Hj.
      * intros Hlt. apply (Hbefore j); assumption.
      * intros Hvj.
        pose proof (ratio_not_nan p kj vj (nth_error_In _ _ Hj) Hvj) as Hkj.
        split.
        -- apply not_lt_le; trivial. apply (Hall j). exact Hj.
        -- intros Hlt. apply not_le_lt; trivial.
           apply (Hbefore j); assumption.
  - intros v. repeat split; reflexivity.
Qed.

(** C6 at the example reading: PM2_5, at position 0, has a positive ratio
    and the five other ratios are at most that. *)
Lemma dominant_is_first_largest_ratio_witness :
  exists i k v,
    nth_error (entries example_reading) i = Some (k, v) /\
    getDominantPollutant (Some example_reading) = Some k /\
    forall j kj vj,
      nth_error (entries example_reading) j = Some (kj, vj) ->
      lt (ratio k v) (ratio kj vj) = false /\
      ((j < i)%nat -> le (ratio k v) (ratio kj vj) = false) /\
      (is_nan vj = false ->
       le (ratio kj vj) (ratio k v) = true /\
       ((j < i)%nat -> lt (ratio kj vj) (ratio k v) = true)).
Proof.
  apply (proj1 dominant_is_first_largest_ratio example_reading).
  exists "PM2_5", 30. split; [left; reflexivity | reflexivity].
Defined.

(** C6 as stated fails on the all-zero reading: every ratio is 0, the
    first pollutant of the enumeration with the largest ratio is PM2_5,
    and the function returns [null]. *)
Lemma dominant_of_zero_reading_is_null :
  map (fun kv => ratio (fst kv) (snd kv)) (entries zero_reading)
    = [0; 0; 0; 0; 0; 0] /\
  getDominantPollutant (Some zero_reading) = None.
Proof. split; reflexivity. Qed.

(** C10.  For a reading object the function returns [null] exactly when
    none of the six ratios PM2_5 / 15, PM10 / 45, NO2 / 25, SO2 / 40,
    O3 / 100 and CO / 4000 is strictly above 0; and so it returns a
    pollutant exactly when one of them is.  The six keys and their ratios
    are those of the source.  The all-zero reading gives [null]; a reading
    whose only non-zero concentration is CO = 1 gives CO, and the example
    reading gives PM2_5. *)
Theorem dominant_null_iff_no_positive_ratio :
  (forall p : Pollutants,
      getDominantPollutant (Some p) = None <->
      gt (PM2_5 p / 15) 0 = false /\ gt (PM10 p / 45) 0 = false /\
      gt (NO2 p / 25) 0 = false /\ gt (SO2 p / 40) 0 = false /\
      gt (O3 p / 100) 0 = false /\ gt (CO p / 4000) 0 = false) /\
  (forall p : Pollutants,
      (exists k, getDominantPollutant (Some p) = Some k) <->
      gt (PM2_5 p / 15) 0 = true \/ gt (PM10 p / 45) 0 = true \/
      gt (NO2 p / 25) 0 = true \/ gt (SO2 p / 40) 0 = true \/
      gt (O3 p / 100) 0 = true \/ gt (CO p / 4000) 0 = true) /\
  (forall p : Pollutants,
      getDominantPollutant (Some p) = None <->
      (forall k v, In (k, v) (entries p) -> gt (ratio k v) 0 = false)) /\
  (forall p : Pollutants,
      map fst (entries p) = ["PM2_5"; "PM10"; "NO2"; "SO2"; "O3"; "CO"]) /\
  (forall v : float,
      ratio "PM2_5" v = v / 15 /\ ratio "PM10" v = v / 45 /\
      ratio "NO2" v = v / 25 /\ ratio "SO2" v = v / 40 /\
      ratio "O3" v = v / 100 /\ ratio "CO" v = v / 4000) /\
  getDominantPollutant (Some zero_reading) = None /\
  getDominantPollutant (Some (mkPollutants 0 0 0 0 0 1)) = Some "CO" /\
  getDominantPollutant (Some example_reading) = Some "PM2_5".
Proof.
  assert (Hiff : forall p : Pollutants,
      getDominantPollutant (Some p) = None <->
      (forall k v, In (k, v) (entries p) -> gt (ratio k v) 0 = false)).
  { intros p. unfold getDominantPollutant.
    destruct (visit_all (entries p) 0 None)
      as [[Hsame Hnone] | (i & k & v & Hi & Hres & Hgt & _ & _)].
    - rewrite Hsame. simpl. split; [intros _; exact Hnone | reflexivity].
    - rewrite Hres. simpl. split; [discriminate|].
      intros Hnone. apply nth_error_In in Hi.
      rewrite (Hnone _ _ Hi) in Hgt. discriminate. }
  assert (Hsix : forall p : Pollutants,
      getDominantPollutant (Some p) = None <->
      gt (PM2_5 p / 15) 0 = false /\ gt (PM10 p / 45) 0 = false /\
      gt (NO2 p / 25) 0 = false /\ gt (SO2 p / 40) 0 = false /\
      gt (O3 p / 100) 0 = false /\ gt (CO p / 4000) 0 = false).
  { intros p. rewrite Hiff. split.
    - intros H. repeat apply conj.
      + apply (H "PM2_5" (PM2_5 p)). left. reflexivity.
      + apply (H "PM10" (PM10 p)). do 1 right. left. reflexivity.
      + apply (H "NO2" (NO2 p)). do 2 right. left. reflexivity.
      + apply (H "SO2" (SO2 p)). do 3 right. left. reflexivity.
      + apply (H "O3" (O3 p)). do 4 right. left. reflexivity.
      + apply (H "CO" (CO p)). do 5 right. left. reflexivity.
    - intros (H1 & H2 & H3 & H4 & H5 & H6) k v Hin. simpl in Hin.
      repeat (destruct Hin as [Hin|Hin];
              [injection Hin as <- <-; assumption|]).
      destruct Hin. }
  split; [exact Hsix|].
  split.
  { intros p. split.
    - intros [k Hk].
      destruct (gt (PM2_5 p / 15) 0) eqn:E1; [left; reflexivity|].
      destruct (gt (PM10 p / 45) 0) eqn:E2; [do 1 right; left; reflexivity|].
      destruct (gt (NO2 p / 25) 0) eqn:E3; [do 2 right; left; reflexivity|].
      destruct (gt (SO2 p / 40) 0) eqn:E4; [do 3 right; left; reflexivity|].
      destruct (gt (O3 p / 100) 0) eqn:E5; [do 4 right; left; reflexivity|].
      destruct (gt (CO p / 4000) 0) eqn:E6; [do 5 right; reflexivity|].
      assert (Hnone : getDominantPollutant (Some p) = None)
        by (apply Hsix; repeat split; assumption).
      congruence.
    - intros Hpos.
      destruct (getDominantPollutant (Some p)) as [k|] eqn:E;
        [exists k; reflexivity|].
      apply Hsix in E. destruct E as (H1 & H2 & H3 & H4 & H5 & H6).
      destruct Hpos as [H|[H|[H|[H|[H|H]]]]]; congruence. }
  split; [exact Hiff|].
  split; [reflexivity|].
  split; [intros v; repeat split; reflexivity|].
  repeat split; reflexivity.
Qed.

(** C10 at the all-zero reading, from right to left. *)
Lemma dominant_null_iff_no_positive_ratio_witness :
  getDominantPollutant (Some zero_reading) = None.
Proof.
  apply (proj1 dominant_null_iff_no_positive_ratio zero_reading).
  repeat split; reflexivity.
Defined.
End MetricsFacts.
(* ================================================================== *)
(** * Facts: location resolution *)
(* ================================================================== *)

Module LocationFacts.

Import JSNumber App Location.
#[local] Open Scope float_scope.
#[local] Open Scope Z_scope.

(** A cache entry that is not fresh does not become fresh later. *)
Lemma stale_stays_stale (s : Storage) (now later : Z) :
  now <= later ->
  getCachedPosition s now = None -> getCachedPosition s later = None.
Proof.
  intros Hclock. unfold getCachedPosition.
  destruct (getItem s) as [[|lat lon ts]|]; trivial.
  destruct (now - ts <? CACHE_EXPIRY_TIME) eqn:E; [discriminate|].
  intros _. apply Z.ltb_ge in E.
  destruct (later - ts <? CACHE_EXPIRY_TIME) eqn:E'; [|reflexivity].
  apply Z.ltb_lt in E'. lia.
Qed.

(** C3, the behaviour of the code.  The geolocation requests are made
    only when the cache holds no fresh position, and when both fail the
    [catch] clause reads the cache through the same 30 minute test.  With
    a clock that does not run backwards that second reading finds nothing
    either: the call leaves the component and the storage as they are.  In
    particular a cached position that exists but is 30 minutes old or
    older is not used, and the coordinates stay what they were. *)
Theorem cached_fallback_never_fires
    (c : Component) (s : Storage) (now later : Z) :
  now <= later ->
  getCachedPosition s now = None ->
  let r := getUserLocation (Available None None) now later c s in
  r = mkResolved c s false /\
  forall la lo ts,
    getItem s = Some (Cached la lo ts) ->
    30 * 60 * 1000 <= now - ts /\
    latitude (component r) = latitude c /\
    longitude (component r) = longitude c.
Proof.
  intros Hclock Hstale r.
  assert (Hr : r = mkResolved c s false).
  { subst r. unfold getUserLocation.
    rewrite Hstale. simpl requestPosition. cbv iota.
    rewrite (stale_stays_stale s now later Hclock Hstale). reflexivity. }
  split; [exact Hr|].
  intros la lo ts Hitem. rewrite Hr. cbn [component].
  repeat split.
  unfold getCachedPosition in Hstale. rewrite Hitem in Hstale.
  destruct (now - ts <? CACHE_EXPIRY_TIME) eqn:E; [discriminate|].
  apply Z.ltb_ge in E. exact E.
Qed.

(** C3 at a failing input: London was cached at time 0, the function
    starts 30 minutes later and both geolocation requests fail.  The
    cached value exists, and the coordinates are still the New York City
    default, not London. *)
Lemma cached_fallback_never_fires_witness :
  let r := getUserLocation (Available None None) 1800000 1800001
             initial london_at_0 in
  r = mkResolved initial london_at_0 false /\
  getItem london_at_0 = Some (Cached 51.5074 (-0.1278) 0) /\
  latitude (component r) = 40.7128%float /\
  longitude (component r) = (-74.0060)%float /\
  strict_eq (latitude (component r)) 51.5074 = false /\
  strict_eq (longitude (component r)) (-0.1278) = false.
Proof.
  assert (Hclock : 1800000 <= 1800001) by lia.
  pose proof (cached_fallback_never_fires initial london_at_0
                1800000 1800001 Hclock eq_refl) as [Hr _].
  split; [exact Hr|]. repeat split; reflexivity.
Defined.

End LocationFacts.

(* ================================================================== *)
(** * Facts: the air quality fetch *)
(* ================================================================== *)

Module FetcherFacts.

Import JSNumber Metrics App Fetcher.
#[local] Open Scope float_scope.
#[local] Open Scope string_scope.

Lemma updateChart_forecastData (l : list Entry) (c : Component) :
  forecastData (updateChart l c) = forecastData c.
Proof. unfold updateChart. destruct (chartCanvas c); reflexivity. Qed.

Lemma updateChart_error (l : list Entry) (c : Component) :
  error (updateChart l c) = error c.
Proof. unfold updateChart. destruct (chartCanvas c); reflexivity. Qed.

(** The [catch] clause runs exactly in these cases. *)
Lemma caught_iff (cur fc : Fetched) (c : Component) :
  caught cur fc c <->
  (cur = Rejected \/ fc = Rejected \/
   unsuccessful cur \/ unsuccessful fc \/
   undecodable cur \/ undecodable fc \/
   lacks_first_entry cur).
Proof.
  unfold caught, unsuccessful, undecodable, lacks_first_entry.
  split.
  - intros [e He].
    destruct cur as [|[|] [[[[|x l]|]]|]]; auto;
      destruct fc as [|[|] [pf|]]; auto 8;
      try (right; right; left; eexists; reflexivity);
      try (right; right; right; left; eexists; reflexivity);
      try (do 4 right; left; eexists; reflexivity);
      try (do 5 right; left; eexists; reflexivity);
      try (do 6 right; eexists; eexists; split; [reflexivity|]; auto; fail).
    simpl in He. discriminate.
  - intros H.
    destruct cur as [|[|] [[[[|x l]|]]|]];
      try (eexists; reflexivity);
      destruct fc as [|[|] [pf|]];
      try (eexists; reflexivity).
    exfalso.
    destruct H as [H|[H|[[j H]|[[j H]|[[o H]|[[o H]|(o & p & H & [H'|H'])]]]]]];
      try discriminate; injection H as <- <-; simpl in H'; discriminate.
Qed.

(** A [try] block that runs to its end leaves the error message alone. *)
Lemma try_block_error (cur fc : Fetched) (c c' : Component) :
  try_block cur fc c = inr c' -> error c' = error c.
Proof.
  unfold try_block.
  destruct cur as [|[|] [[[[|x l]|]]|]];
    destruct fc as [|[|] [[[[|y l']|]]|]];
    cbn -[slice_0_24 updateChart]; try discriminate;
    intros E; injection E as <-; cbn -[slice_0_24 updateChart];
    try reflexivity.
  destruct (chartCanvas c); cbn -[slice_0_24 updateChart];
    rewrite ?updateChart_error; reflexivity.
Qed.

(** The stored forecast after a [try] block that runs to its end: the old
    one, or the first 24 entries of the response. *)
Lemma try_block_forecast (cur fc : Fetched) (c c' : Component) :
  try_block cur fc c = inr c' ->
  forecastData c' = forecastData c \/
  exists l, forecastData c' = slice_0_24 l.
Proof.
  unfold try_block.
  destruct cur as [|[|] [[[[|x l]|]]|]];
    destruct fc as [|[|] [[[[|y l']|]]|]];
    cbn -[slice_0_24 updateChart]; try discriminate;
    intros E; injection E as <-; cbn -[slice_0_24 updateChart];
    auto.
  right. exists (y :: l').
  destruct (chartCanvas c); cbn -[slice_0_24 updateChart];
    rewrite ?updateChart_forecastData; reflexivity.
Qed.

(** C4, on the code.  Both requests are issued once each, whatever the
    outcome: no retry.  The call fails as a whole, the error message set
    and the component otherwise as before (current index, pollutant
    readings and forecast in place), if the current response is not
    successful, or the forecast response is not successful, or the current
    payload lacks its first list entry; it fails in the same way when a
    request is rejected or a body is not JSON, and in no other case. *)
Theorem fetch_fails_as_a_whole (fetch : Network) (c : Component) :
  let currentResponse := fetch (AirPollution (latitude c) (longitude c)) in
  let forecastResponse :=
    fetch (AirPollutionForecast (latitude c) (longitude c)) in
  let r := fetchAirQuality fetch c in
  let failure :=
    set_error
      (Some "Failed to fetch air quality data. Please try again later.") c in
  snd r = [ AirPollution (latitude c) (longitude c);
            AirPollutionForecast (latitude c) (longitude c) ] /\
  (unsuccessful currentResponse \/ unsuccessful forecastResponse \/
   lacks_first_entry currentResponse ->
   fst r = failure) /\
  (caught currentResponse forecastResponse c <->
   (unsuccessful currentResponse \/ unsuccessful forecastResponse \/
    lacks_first_entry currentResponse) \/
   (currentResponse = Rejected \/ forecastResponse = Rejected \/
    undecodable currentResponse \/ undecodable forecastResponse)) /\
  (caught currentResponse forecastResponse c -> fst r = failure) /\
  (currentAQI failure = currentAQI c /\ pollutants failure = pollutants c /\
   forecastData failure = forecastData c /\
   lastUpdateTime failure = lastUpdateTime c /\ chart failure = chart c) /\
  (~ caught currentResponse forecastResponse c -> error (fst r) = error c).
Proof.
  intros cur fc r failure.
  assert (Hcaught : caught cur fc c -> fst r = failure).
  { intros [e He]. subst r. unfold fetchAirQuality. fold cur fc.
    rewrite He. reflexivity. }
  repeat apply conj; try reflexivity.
  - subst r. unfold fetchAirQuality.
    destruct (try_block _ _ c); reflexivity.
  - intros H. apply Hcaught, caught_iff. tauto.
  - rewrite caught_iff. tauto.
  - rewrite caught_iff. tauto.
  - exact Hcaught.
  - intros Hnot. subst r. unfold fetchAirQuality. fold cur fc.
    destruct (try_block cur fc c) as [e|c'] eqn:E.
    + exfalso. apply Hnot. exists e. exact E.
    + apply (try_block_error _ _ _ _ E).
Qed.

(** C4 on the code, with a current response that is not successful. *)
Lemma fetch_fails_as_a_whole_witness :
  fst (fetchAirQuality
         (answering (Response false None)
            (Response true (Some (mkPayload (Some (hourly_forecast 24))))))
         initial)
  = set_error
      (Some "Failed to fetch air quality data. Please try again later.")
      initial.
Proof.
  apply (proj1 (proj2 (fetch_fails_as_a_whole
           (answering (Response false None)
              (Response true (Some (mkPayload (Some (hourly_forecast 24))))))
           initial))).
  left. exists None. reflexivity.
Defined.

(** C4 as stated fails in the "only if" direction: both responses are
    successful, the current payload has its first list entry, and the
    forecast body is not JSON.  [Promise.all] over the two [json()] calls
    is rejected, the [catch] clause sets the error message and the rest of
    the component is left as it was. *)
Lemma undecodable_forecast_fails_too :
  let currentResponse :=
    Response true (Some (mkPayload (Some [entry_of 2 1700000000]))) in
  let forecastResponse := Response true None in
  let r := fetchAirQuality (answering currentResponse forecastResponse)
             initial in
  try_block currentResponse forecastResponse initial = inl BodyNotJSON /\
  fst r
  = set_error
      (Some "Failed to fetch air quality data. Please try again later.")
      initial /\
  currentAQI (fst r) = currentAQI initial /\
  pollutants (fst r) = pollutants initial /\
  forecastData (fst r) = forecastData initial /\
  ~ unsuccessful currentResponse /\
  ~ unsuccessful forecastResponse /\
  ~ lacks_first_entry currentResponse.
Proof.
  repeat apply conj; try reflexivity.
  - intros [j H]. discriminate.
  - intros [j H]. discriminate.
  - intros (o & p & H & [H'|H']); injection H as <- <-; discriminate.
Qed.

(** ** The forecast series *)

Lemma fetch_forecast_bound (fetch : Network) (c : Component) :
  (List.length (forecastData c) <= 24)%nat ->
  (List.length (forecastData (fst (fetchAirQuality fetch c))) <= 24)%nat.
Proof.
  intros Hc. unfold fetchAirQuality.
  destruct (try_block _ _ c) as [e|c'] eqn:E; [exact Hc|].
  cbn [fst].
  destruct (try_block_forecast _ _ _ _ E) as [-> | [l ->]]; [exact Hc|].
  unfold slice_0_24. rewrite length_firstn. lia.
Qed.

(** C5.  When the fetch goes through and the forecast list has at least 24
    entries, the stored forecast is its first 24 entries in the order of
    the response, and the chart, when its canvas is bound, is drawn from
    these 24 entries in the same order, each with its converted index.
    The stored forecast never has more than 24 points: it is empty at
    first and no call lets it grow beyond 24. *)
Theorem forecast_is_first_24_entries :
  (forall (fetch : Network) (c : Component)
          (current : Entry) (others forecast : list Entry),
      fetch (AirPollution (latitude c) (longitude c))
      = Response true (Some (mkPayload (Some (current :: others)))) ->
      fetch (AirPollutionForecast (latitude c) (longitude c))
      = Response true (Some (mkPayload (Some forecast))) ->
      (24 <= List.length forecast)%nat ->
      let c' := fst (fetchAirQuality fetch c) in
      forecastData c' = firstn 24 forecast /\
      List.length (forecastData c') = 24%nat /\
      (forall i, (i < 24)%nat ->
                 nth_error (forecastData c') i = nth_error forecast i) /\
      (chartCanvas c = true ->
       chart c' =
       Some {| labels := map (fun item => (dt item * 1000)%Z)
                             (firstn 24 forecast);
               data := map (fun item =>
                              convertOpenWeatherMapAQI (aqi (main item)))
                           (firstn 24 forecast) |})) /\
  forecastData initial = [] /\
  (forall (fetch : Network) (c : Component),
      (List.length (forecastData c) <= 24)%nat ->
      (List.length (forecastData (fst (fetchAirQuality fetch c))) <= 24)%nat).
Proof.
  repeat apply conj; [|reflexivity|exact fetch_forecast_bound].
  intros fetch c current others forecast Hcur Hfc Hlen c'.
  destruct forecast as [|item items]; [simpl in Hlen; lia|].
  assert (Hdata : forecastData c' = firstn 24 (item :: items)).
  { subst c'. unfold fetchAirQuality, try_block. rewrite Hcur, Hfc.
    cbn -[slice_0_24 updateChart].
    destruct (chartCanvas c); cbn -[slice_0_24 updateChart];
      rewrite ?updateChart_forecastData; reflexivity. }
  repeat apply conj.
  - exact Hdata.
  - rewrite Hdata, length_firstn. lia.
  - intros i Hi. rewrite Hdata, nth_error_firstn.
    apply Nat.ltb_lt in Hi. rewrite Hi. reflexivity.
  - intros Hcanvas. subst c'. unfold fetchAirQuality, try_block.
    rewrite Hcur, Hfc.
    cbn -[slice_0_24 updateChart]. rewrite Hcanvas.
    unfold updateChart. cbn -[slice_0_24]. rewrite Hcanvas. reflexivity.
Qed.

(** C5 with a forecast of 40 hourly entries. *)
Lemma forecast_is_first_24_entries_witness :
  let c' := fst (fetchAirQuality
                   (answering
                      (Response true
                         (Some (mkPayload (Some [entry_of 2 1700000000]))))
                      (Response true
                         (Some (mkPayload (Some (hourly_forecast 40))))))
                   initial) in
  forecastData c' = firstn 24 (hourly_forecast 40) /\
  List.length (forecastData c') = 24%nat.
Proof.
  intros c'.
  assert (Hlen : (24 <= List.length (hourly_forecast 40))%nat)
    by (vm_compute; lia).
  destruct (proj1 forecast_is_first_24_entries
              (answering
                 (Response true
                    (Some (mkPayload (Some [entry_of 2 1700000000]))))
                 (Response true
                    (Some (mkPayload (Some (hourly_forecast 40))))))
              initial
              (entry_of 2 1700000000) [] (hourly_forecast 40)
              eq_refl eq_refl Hlen)
    as (H1 & H2 & _).
  split; [exact H1 | exact H2].
Defined.

End FetcherFacts.

(* ================================================================== *)
(** * Facts: location search *)
(* ================================================================== *)

Module SearchFacts.

Import JSString App Search.
#[local] Open Scope string_scope.

(** ** Strings *)

Lemma digit_not_white_space (ch : ascii) :
  isDigit ch = true -> isWhiteSpace ch = false.
Proof.
  destruct ch as [[] [] [] [] [] [] [] []]; vm_compute; congruence.
Qed.

Lemma trimEnd_keeps_head (ch : ascii) (s : string) :
  isWhiteSpace ch = false -> truthy (trimEnd (String ch s)) = true.
Proof.
  intros H. simpl. rewrite H. destruct (trimEnd s); reflexivity.
Qed.

(** A string that starts with a digit is not blank. *)
Lemma digits_not_blank (s : string) :
  truthy s = true -> every isDigit s = true -> truthy (trim s) = true.
Proof.
  destruct s as [|ch s]; [discriminate|].
  intros _ H. simpl in H. apply andb_true_iff in H as [Hch _].
  apply digit_not_white_space in Hch.
  unfold trim. simpl trimStart. rewrite Hch.
  apply trimEnd_keeps_head. exact Hch.
Qed.

Lemma five_digits_not_blank (s : string) :
  test_five_digits s = true -> truthy (trim s) = true.
Proof.
  unfold test_five_digits. intros H.
  apply andb_true_iff in H as [Hlen Hdig].
  apply digits_not_blank; [|exact Hdig].
  destruct s; [discriminate|reflexivity].
Qed.

Lemma five_digits_length (s : string) :
  test_five_digits s = true -> String.length s = 5%nat.
Proof.
  unfold test_five_digits. intros H.
  apply andb_true_iff in H as [Hlen _]. now apply Nat.eqb_eq.
Qed.



(** ** Routing *)

(** C7, on the code.  A blank query (empty, or white space only) is
    ignored: no request, nothing written.  Otherwise a query of five
    digits goes to the postal code endpoint, and nowhere else; every other
    query of three characters or more goes to the free-text endpoint with
    a limit of 10; and a query under three characters that is not all
    digits empties the result set and issues no request.  So "10001" is a
    postal code lookup, "Par" a free-text lookup, and "Pa" issues no
    request. *)
Theorem search_routing :
  (forall (fetch : Network) (query : string) (c : Component),
      let r := searchLocation fetch query c in
      (test_five_digits query = true -> snd r = [Zip query]) /\
      (truthy (trim query) = true -> test_five_digits query = false ->
       (3 <= String.length query)%nat ->
       exists retry, snd r = Direct query 10 :: retry) /\
      (truthy (trim query) = true -> test_digits query = false ->
       (String.length query < 3)%nat ->
       r = (set_searchResults [] c, []) /\ searchResults (fst r) = []) /\
      (truthy (trim query) = false -> r = (c, []))) /\
  (forall fetch c, snd (searchLocation fetch "10001" c) = [Zip "10001"]) /\
  (forall fetch c, exists retry,
        snd (searchLocation fetch "Par" c) = Direct "Par" 10 :: retry) /\
  (forall fetch c,
      snd (searchLocation fetch "Pa" c) = [] /\
      searchResults (fst (searchLocation fetch "Pa" c)) = []).
Proof.
  assert (Hgen : forall (fetch : Network) (query : string) (c : Component),
      let r := searchLocation fetch query c in
      (test_five_digits query = true -> snd r = [Zip query]) /\
      (truthy (trim query) = true -> test_five_digits query = false ->
       (3 <= String.length query)%nat ->
       exists retry, snd r = Direct query 10 :: retry) /\
      (truthy (trim query) = true -> test_digits query = false ->
       (String.length query < 3)%nat ->
       r = (set_searchResults [] c, []) /\ searchResults (fst r) = []) /\
      (truthy (trim query) = false -> r = (c, []))).
  { intros fetch query c r. subst r. unfold searchLocation.
    repeat apply conj.
    - intros Hzip.
      rewrite (five_digits_not_blank _ Hzip), (five_digits_length _ Hzip), Hzip.
      cbn [negb Nat.ltb Nat.leb andb].
      destruct (fetch (Zip query)) as [|status [data|]]; try reflexivity.
      destruct ((status =? 404)%nat || isEmptyArray data); [reflexivity|].
      destruct data; reflexivity.
    - intros Hblank Hzip Hlen. rewrite Hblank, Hzip.
      assert (Hlt : (String.length query <? 3)%nat = false)
        by (apply Nat.ltb_ge; exact Hlen).
      assert (Hle : (3 <=? String.length query)%nat = true)
        by (apply Nat.leb_le; exact Hlen).
      rewrite Hlt, Hle. cbn [negb andb].
      destruct (fetch (Direct query 10)) as [|status [data|]];
        try (eexists; reflexivity).
      destruct ((status =? 404)%nat || isEmptyArray data).
      + destruct (fetch (Direct (slice_0_minus1 query) 10))
          as [|st [[lenientData|o]|]]; try (eexists; reflexivity).
        destruct (filter _ lenientData); eexists; reflexivity.
      + destruct data; eexists; reflexivity.
    - intros Hblank Hdig Hlen. rewrite Hblank, Hdig.
      assert (Hlt : (String.length query <? 3)%nat = true)
        by (apply Nat.ltb_lt; exact Hlen).
      rewrite Hlt. split; reflexivity.
    - intros Hblank. rewrite Hblank. reflexivity. }
  repeat apply conj.
  - exact Hgen.
  - intros fetch c. apply (Hgen fetch "10001" c). reflexivity.
  - intros fetch c. apply (Hgen fetch "Par" c); [reflexivity|reflexivity|].
    simpl. lia.
  - intros fetch c.
    destruct (Hgen fetch "Pa" c) as (_ & _ & H & _).
    assert (Hlen : (String.length "Pa" < 3)%nat) by (simpl; lia).
    destruct (H eq_refl eq_refl Hlen) as [H1 H2].
    split; [rewrite H1; reflexivity | exact H2].
Qed.

(** C7 on the code, at the queries "94103", "Berlin" and "Be". *)
Lemma search_routing_witness :
  snd (searchLocation empty_network "94103" initial) = [Zip "94103"] /\
  (exists retry, snd (searchLocation empty_network "Berlin" initial)
                 = Direct "Berlin" 10 :: retry) /\
  searchLocation empty_network "Be" initial
  = (set_searchResults [] initial, []).
Proof.
  pose proof (proj1 search_routing) as H.
  repeat apply conj.
  - apply (H empty_network "94103" initial). reflexivity.
  - apply (H empty_network "Berlin" initial);
      [reflexivity | reflexivity | simpl; lia].
  - assert (Hlen : (String.length "Be" < 3)%nat) by (simpl; lia).
    exact (proj1 (proj1 (proj2 (proj2 (H empty_network "Be" initial)))
                    eq_refl eq_refl Hlen)).
Defined.

(** C7 as stated fails on blank queries.  Three spaces are no five digit
    query and have length three, and no request is issued for them; one
    space is a non-numeric query under three characters, and the result
    set shown before is left in place. *)
Lemma blank_query_is_ignored :
  test_five_digits "   " = false /\
  String.length "   " = 3%nat /\
  snd (searchLocation empty_network "   " initial) = [] /\
  test_digits " " = false /\
  String.length " " = 1%nat /\
  searchResults
    (fst (searchLocation empty_network " "
            (set_searchResults [paris] initial)))
  = [paris].
Proof. repeat split; reflexivity. Qed.

(** ** The lenient retry *)




End SearchFacts.
(* ================================================================== *)
(** * Facts: conversion and display helpers together *)
(* ================================================================== *)

Module DisplayFacts.

Import JSNumber NumberFacts Metrics MetricsFacts Display.
#[local] Open Scope float_scope.
#[local] Open Scope string_scope.

(** Two numbers in order that are not equal are in strict order. *)
Lemma le_neq_lt (a b : float) :
  le a b = true -> strict_eq a b = false -> lt a b = true.
Proof.
  intros Hle Hne. apply le_rank in Hle as (ra & rb & Ha & Hb & [Hlt | ->]).
  - apply lt_rank. exists ra, rb. auto.
  - assert (E : strict_eq a b = true) by (apply eq_rank; exists rb; auto).
    congruence.
Qed.

(** What the conversion does, case by case. *)
Lemma convert_cases (v : float) :
  (v = 1 /\ convertOpenWeatherMapAQI v = 20) \/
  (v = 2 /\ convertOpenWeatherMapAQI v = 60) \/
  (v = 3 /\ convertOpenWeatherMapAQI v = 120) \/
  (v = 4 /\ convertOpenWeatherMapAQI v = 180) \/
  (v = 5 /\ convertOpenWeatherMapAQI v = 250) \/
  (convertOpenWeatherMapAQI v = v /\
   strict_eq v 1 = false /\ strict_eq v 2 = false /\
   strict_eq v 3 = false /\ strict_eq v 4 = false /\
   strict_eq v 5 = false).
Proof.
  destruct (strict_eq v 1) eqn:E1.
  { apply eq_leibniz in E1; [|vm_compute; discriminate]. subst. auto. }
  destruct (strict_eq v 2) eqn:E2.
  { apply eq_leibniz in E2; [|vm_compute; discriminate]. subst. auto. }
  destruct (strict_eq v 3) eqn:E3.
  { apply eq_leibniz in E3; [|vm_compute; discriminate]. subst. auto 6. }
  destruct (strict_eq v 4) eqn:E4.
  { apply eq_leibniz in E4; [|vm_compute; discriminate]. subst. auto 7. }
  destruct (strict_eq v 5) eqn:E5.
  { apply eq_leibniz in E5; [|vm_compute; discriminate]. subst. auto 8. }
  do 5 right. repeat split; trivial.
  unfold convertOpenWeatherMapAQI, conversion, property.
  rewrite E1, E2, E3, E4, E5. reflexivity.
Qed.

(** X1.  Converting a value does not change its colour: a provider
    category has the colour of the index it is converted to, and any other
    value is left as it is.  The map circle, coloured from the converted
    index, has the colour the raw value would get. *)
Theorem conversion_keeps_color (v : float) :
  getAQIColor (convertOpenWeatherMapAQI v) = getAQIColor v.
Proof.
  destruct (convert_cases v)
    as [[-> ->]|[[-> ->]|[[-> ->]|[[-> ->]|[[-> ->]|[-> _]]]]]];
    reflexivity.
Qed.

(** X2.  The conversion is idempotent: no value of the table is a key of
    the table. *)
Theorem conversion_idempotent (v : float) :
  convertOpenWeatherMapAQI (convertOpenWeatherMapAQI v)
  = convertOpenWeatherMapAQI v.
Proof.
  destruct (convert_cases v)
    as [[-> ->]|[[-> ->]|[[-> ->]|[[-> ->]|[[-> ->]|[H _]]]]]];
    try reflexivity.
  now rewrite !H.
Qed.

(** X3.  A converted index is never shown with a provider category label
    ("Fair", "Poor", "Very Poor"): its label is one of the six labels of
    the regular scale, or "Unknown", and "Unknown" only for a raw value
    strictly between 1 and 5 that is not in the table. *)
Theorem converted_label_is_on_the_scale (v : float) :
  In (getAQIDescription (convertOpenWeatherMapAQI v)) scale_labels \/
  (getAQIDescription (convertOpenWeatherMapAQI v) = "Unknown" /\
   lt 1 v = true /\ lt v 5 = true /\ convertOpenWeatherMapAQI v = v).
Proof.
  destruct (convert_cases v)
    as [[-> ->]|[[-> ->]|[[-> ->]|[[-> ->]|[[-> ->]|H]]]]];
    try (left; vm_compute; tauto).
  destruct H as (Hid & E1 & E2 & E3 & E4 & E5). rewrite Hid.
  unfold getAQIDescription. rewrite E1, E2, E3, E4, E5.
  destruct (ge v 1 && le v 5) eqn:Hcat.
  - right. apply andb_true_iff in Hcat as [H1 H5]. unfold ge in H1.
    fold (le 1 v) in H1. repeat split; trivial.
    + apply le_neq_lt; trivial.
      destruct (strict_eq 1 v) eqn:E; [|reflexivity].
      apply eq_rank in E as (r & Ha & Hb).
      assert (E' : strict_eq v 1 = true) by (apply eq_rank; exists r; auto).
      congruence.
    + apply le_neq_lt; trivial.
  - left. unfold scale_labels.
    destruct (le v 50); [simpl; tauto|].
    destruct (le v 100); [simpl; tauto|].
    destruct (le v 150); [simpl; tauto|].
    destruct (le v 200); [simpl; tauto|].
    destruct (le v 300); simpl; tauto.
Qed.

(** X4.  Outside the category range the text on the status badge is dark
    exactly on the green and yellow backgrounds and white on the others;
    inside the category range it is dark on every background, orange, red
    and purple included. *)
Theorem text_color_follows_background (v : float) :
  (ge v 1 && le v 5 = false ->
   (getTextColorForAQI v = "#1f2937" <->
    getAQIColor v = "#22c55e" \/ getAQIColor v = "#eab308") /\
   (getTextColorForAQI v = "white" <->
    getAQIColor v <> "#22c55e" /\ getAQIColor v <> "#eab308")) /\
  (ge v 1 && le v 5 = true -> getTextColorForAQI v = "#1f2937").
Proof.
  split.
  - intros Hcat. unfold getTextColorForAQI, getAQIColor. rewrite Hcat.
    destruct (le v 50) eqn:H50.
    + assert (H100 : le v 100 = true)
        by (apply (le_trans v 50 100); [exact H50 | reflexivity]).
      rewrite H100. split; split; intros H; auto; try discriminate.
      destruct H as [H _]. now contradiction H.
    + destruct (le v 100) eqn:H100.
      * split; split; intros H; auto; try discriminate.
        destruct H as [_ H]. now contradiction H.
      * destruct (le v 150); [|destruct (le v 200); [|destruct (le v 300)]];
          split; split; intros H; try discriminate;
          try (destruct H; discriminate); try reflexivity;
          split; discriminate.
  - intros Hcat. apply andb_true_iff in Hcat as [_ H5].
    unfold getTextColorForAQI.
    assert (H100 : le v 100 = true)
      by (apply (le_trans v 5 100); [exact H5 | reflexivity]).
    now rewrite H100.
Qed.

(** [text_color_follows_background] at 75 and at category 5. *)
Lemma text_color_follows_background_witness :
  (getTextColorForAQI 75 = "#1f2937" <->
   getAQIColor 75 = "#22c55e" \/ getAQIColor 75 = "#eab308") /\
  getTextColorForAQI 5 = "#1f2937".
Proof.
  split.
  - apply (proj1 (proj1 (text_color_follows_background 75) eq_refl)).
  - apply (proj2 (text_color_follows_background 5) eq_refl).
Defined.

Ltac split_bands v :=
  destruct (le v 50);
  [|destruct (le v 100);
    [|destruct (le v 150);
      [|destruct (le v 200);
        [|destruct (le v 300)]]]].

(** X5.  Outside the category range the health recommendations go with
    the status label: two values get the same recommendations exactly when
    they get the same label.  A value inside the category range always
    gets the recommendations of the first band, whatever its label. *)
Theorem recommendations_follow_label (v w : float) :
  (ge v 1 && le v 5 = false -> ge w 1 && le w 5 = false ->
   (getAQIDescription v = getAQIDescription w <->
    getHealthRecommendations v = getHealthRecommendations w)) /\
  (ge v 1 && le v 5 = true ->
   getHealthRecommendations v =
   {| activity := "It's a great time for outdoor activities";
      sensitive := "No special precautions needed";
      ventilation := "Ideal for natural ventilation" |}).
Proof.
  split.
  - intros Hv Hw. unfold getAQIDescription, getHealthRecommendations.
    rewrite Hv, Hw.
    split_bands v; split_bands w;
      split; intros H; try reflexivity; discriminate H.
  - intros Hcat. apply andb_true_iff in Hcat as [_ H5].
    unfold getHealthRecommendations.
    assert (H50 : le v 50 = true)
      by (apply (le_trans v 5 50); [exact H5 | reflexivity]).
    now rewrite H50.
Qed.

(** [recommendations_follow_label] at 60 and 75 (both "Moderate"), and at
    category 5 ("Very Poor"). *)
Lemma recommendations_follow_label_witness :
  getHealthRecommendations 60 = getHealthRecommendations 75 /\
  activity (getHealthRecommendations 5)
  = "It's a great time for outdoor activities".
Proof.
  split.
  - apply (proj1 (recommendations_follow_label 60 75) eq_refl eq_refl).
    reflexivity.
  - rewrite (proj2 (recommendations_follow_label 5 5) eq_refl).
    reflexivity.
Defined.

(** X6.  The three places that list the pollutants agree: whatever
    [getDominantPollutant] returns is one of the six keys of the reading,
    and each of these keys has a guideline and a description; a key
    outside the six has neither, and its ratio is NaN. *)
Theorem dominant_has_guideline_and_description :
  (forall (p : Pollutants) (k : string),
      getDominantPollutant (Some p) = Some k ->
      In k ["PM2_5"; "PM10"; "NO2"; "SO2"; "O3"; "CO"]) /\
  (forall k : string,
      In k ["PM2_5"; "PM10"; "NO2"; "SO2"; "O3"; "CO"] ->
      (exists g, guideline_in guidelines k = Some g) /\
      (exists d, getPollutantDescription k = Some d)) /\
  (forall (k : string) (v : float),
      ~ In k ["PM2_5"; "PM10"; "NO2"; "SO2"; "O3"; "CO"] ->
      guideline_in guidelines k = None /\
      getPollutantDescription k = None /\
      is_nan (ratio k v) = true).
Proof.
  repeat apply conj.
  - intros p k H. unfold getDominantPollutant in H.
    destruct (visit_all (entries p) 0 None)
      as [[Hsame _] | (i & k' & v & Hi & Hres & _)].
    + rewrite Hsame in H. discriminate.
    + rewrite Hres in H. injection H as <-.
      apply nth_error_In in Hi.
      change (In (fst (k', v)) (map fst (entries p))).
      apply in_map. exact Hi.
  - intros k Hin. simpl in Hin.
    repeat (destruct Hin as [<- | Hin];
            [split; eexists; reflexivity|]).
    destruct Hin.
  - intros k v Hout.
    assert (Hne : forall s, In s ["PM2_5"; "PM10"; "NO2"; "SO2"; "O3"; "CO"] ->
                            String.eqb k s = false).
    { intros s Hs. destruct (String.eqb_spec k s) as [->|]; [|reflexivity].
      contradiction. }
    assert (Hg : guideline_in guidelines k = None).
    { unfold guidelines, guideline_in.
      rewrite !Hne by (simpl; tauto). reflexivity. }
    repeat split.
    + exact Hg.
    + unfold getPollutantDescription.
      rewrite !Hne by (simpl; tauto). reflexivity.
    + unfold ratio. rewrite Hg. reflexivity.
Qed.

(** [dominant_has_guideline_and_description] at the example reading and
    at the key "NH3", which the provider reports and the script does not
    read. *)
Lemma dominant_has_guideline_and_description_witness :
  In "PM2_5" ["PM2_5"; "PM10"; "NO2"; "SO2"; "O3"; "CO"] /\
  getPollutantDescription "NH3" = None.
Proof.
  destruct dominant_has_guideline_and_description as (Hdom & _ & Hout).
  split.
  - apply (Hdom example_reading). reflexivity.
  - apply (Hout "NH3" 0).
    simpl. intros H.
    repeat (destruct H as [H|H]; [discriminate H|]). exact H.
Defined.

End DisplayFacts.
(* ================================================================== *)
(** * Facts: the position cache *)
(* ================================================================== *)

Module CacheFacts.

Import JSNumber NumberFacts App Location.
#[local] Open Scope float_scope.
#[local] Open Scope Z_scope.

(** A finite number is equal to itself. *)
Lemma finite_eq_refl (v : float) : finite v = true -> strict_eq v v = true.
Proof.
  unfold finite. intros H. apply eq_rank. unfold frank.
  destruct (Prim2SF v) as [s|s| |s m e]; try discriminate;
    try destruct s; eexists; split; reflexivity.
Qed.

Lemma strict_eq_sym (a b : float) : strict_eq a b = strict_eq b a.
Proof.
  destruct (strict_eq a b) eqn:E, (strict_eq b a) eqn:E'; trivial.
  - apply eq_rank in E as (r & Ha & Hb).
    assert (strict_eq b a = true) by (apply eq_rank; eauto). congruence.
  - apply eq_rank in E' as (r & Hb & Ha).
    assert (strict_eq a b = true) by (apply eq_rank; eauto). congruence.
Qed.

(** What the text holds is the number that was written, up to the sign of
    zero: the two are [===], they are the same value unless the number is
    a zero, and a zero of either sign is held as [0]. *)
Lemma JSON_number_spec (d : Degrees) :
  strict_eq (JSON_number d) (number d) = true /\
  (strict_eq (number d) 0 = false -> JSON_number d = number d) /\
  (strict_eq (number d) 0 = true -> JSON_number d = 0%float).
Proof.
  unfold JSON_number. fold (strict_eq (number d) 0).
  destruct (strict_eq (number d) 0) eqn:E.
  - repeat split; try discriminate. now rewrite strict_eq_sym.
  - repeat split; try discriminate.
    apply finite_eq_refl, number_finite.
Qed.

(** X7.  Round trip through the cache.  When [setItem] does not throw, a
    fix cached at time [t] is read back, whatever the storage held before,
    at every time less than 30 minutes after [t], and is not read back
    from 30 minutes on.  What is read back is the fix as its JSON text
    holds it: each coordinate is [===] to the one cached, and is the very
    same value unless that was a zero, which comes back as [0] whatever
    its sign.  When [setItem] throws, the storage is left as it was, so
    the reading is what it would have been without the call. *)
Theorem cached_position_round_trip
    (la lo : Degrees) (t now : Z) (s : Storage) :
  let s' := cachePosition la lo t s in
  (setItem_throws s = false -> now - t < 30 * 60 * 1000 ->
   exists p,
     getCachedPosition s' now = Some p /\
     strict_eq (pos_latitude p) (number la) = true /\
     strict_eq (pos_longitude p) (number lo) = true /\
     (strict_eq (number la) 0 = false -> pos_latitude p = number la) /\
     (strict_eq (number lo) 0 = false -> pos_longitude p = number lo) /\
     (strict_eq (number la) 0 = true -> pos_latitude p = 0%float) /\
     (strict_eq (number lo) 0 = true -> pos_longitude p = 0%float)) /\
  (setItem_throws s = false -> 30 * 60 * 1000 <= now - t ->
   getCachedPosition s' now = None) /\
  (setItem_throws s = true ->
   s' = s /\ getCachedPosition s' now = getCachedPosition s now).
Proof.
  intros s'. subst s'. unfold cachePosition.
  repeat apply conj.
  - intros Hok Hfresh. rewrite Hok.
    exists (mkPosition (JSON_number la) (JSON_number lo)).
    unfold getCachedPosition, CACHE_EXPIRY_TIME. cbn [getItem].
    apply Z.ltb_lt in Hfresh. rewrite Hfresh. cbn [pos_latitude pos_longitude].
    destruct (JSON_number_spec la) as (H1 & H2 & H3).
    destruct (JSON_number_spec lo) as (H4 & H5 & H6).
    repeat apply conj; trivial.
  - intros Hok Hexpired. rewrite Hok.
    unfold getCachedPosition, CACHE_EXPIRY_TIME. cbn [getItem].
    apply Z.ltb_ge in Hexpired. now rewrite Hexpired.
  - intros Hthrows. rewrite Hthrows. split; reflexivity.
Qed.

(** [cached_position_round_trip] one minute after caching: London comes
    back as it was cached. *)
Lemma cached_position_round_trip_witness :
  exists p,
    getCachedPosition
      (cachePosition (coords_latitude london) (coords_longitude london)
         1000 (mkStorage None false)) 61000
    = Some p /\
    strict_eq (pos_latitude p) 51.5074 = true /\
    strict_eq (pos_longitude p) (-0.1278) = true.
Proof.
  assert (Hfresh : 61000 - 1000 < 30 * 60 * 1000) by lia.
  destruct (proj1 (cached_position_round_trip
                     (coords_latitude london) (coords_longitude london)
                     1000 61000 (mkStorage None false))
              eq_refl Hfresh) as (p & Hp & Hla & Hlo & _).
  exists p. repeat split; assumption.
Defined.

(** A negative zero is cached as [0]: the sign is lost in the text. *)
Lemma negative_zero_is_cached_as_zero :
  getCachedPosition
    (cachePosition (coords_latitude greenwich_equator)
       (coords_longitude greenwich_equator) 1000 (mkStorage None false))
    61000
  = Some (mkPosition 0 0) /\
  Prim2SF (number (coords_latitude greenwich_equator)) = S754_zero true /\
  Prim2SF 0 = S754_zero false.
Proof. repeat split; reflexivity. Qed.

(** X10.  Only a geolocation fix is ever cached: when [getUserLocation]
    changes the storage, a request has succeeded, the new entry holds that
    fix, as its JSON text holds it, with the time of the answer, and the
    component holds the coordinates of the fix.  The default coordinates
    and the cached ones are never written back, and a [setItem] that
    throws leaves the storage as it is. *)
Theorem only_a_fix_is_cached
    (g : Geolocation) (now later : Z) (c : Component) (s : Storage) :
  let r := getUserLocation g now later c s in
  storage r = s \/
  exists p,
    requestPosition g = Some (Some p) /\
    setItem_throws s = false /\
    storage r
    = mkStorage
        (Some (Cached (JSON_number (coords_latitude p))
                 (JSON_number (coords_longitude p)) later))
        false /\
    strict_eq (JSON_number (coords_latitude p)) (number (coords_latitude p))
    = true /\
    strict_eq (JSON_number (coords_longitude p)) (number (coords_longitude p))
    = true /\
    latitude (component r) = number (coords_latitude p) /\
    longitude (component r) = number (coords_longitude p).
Proof.
  intros r. subst r. unfold getUserLocation.
  destruct (getCachedPosition s now); [left; reflexivity|].
  destruct (requestPosition g) as [[p|]|] eqn:E.
  - unfold cachePosition. cbn [storage].
    destruct (setItem_throws s) eqn:Hthrows; [left; reflexivity|].
    right. exists p. repeat apply conj; try reflexivity.
    + apply JSON_number_spec.
    + apply JSON_number_spec.
  - left. destruct (getCachedPosition s later); reflexivity.
  - left. reflexivity.
Qed.

End CacheFacts.

(* ================================================================== *)
(** * Facts: the chart and repeated fetches *)
(* ================================================================== *)

Module ViewFacts.

Import JSNumber NumberFacts Metrics App Fetcher FetcherFacts View.
#[local] Open Scope float_scope.
#[local] Open Scope string_scope.

Lemma updateChart_bound (l : list Entry) (c : Component) :
  chartCanvas c = true -> updateChart l c = set_chart (Some (chart_of l)) c.
Proof. intros H. unfold updateChart. rewrite H. reflexivity. Qed.

Lemma updateChart_unbound (l : list Entry) (c : Component) :
  chartCanvas c = false -> updateChart l c = c.
Proof. intros H. unfold updateChart. rewrite H. reflexivity. Qed.

(** Redrawing from the stored forecast keeps the chart in step. *)
Lemma redraw_in_sync (c : Component) :
  forecastData c <> [] -> chart_in_sync c ->
  chart_in_sync (updateChart (forecastData c) c).
Proof.
  intros Hdata Hsync. destruct (chartCanvas c) eqn:Hcanvas.
  - rewrite updateChart_bound by exact Hcanvas.
    unfold chart_in_sync. simpl. auto.
  - rewrite updateChart_unbound by exact Hcanvas. exact Hsync.
Qed.

Lemma fetch_in_sync (fetch : Network) (c : Component) :
  chart_in_sync c -> chart_in_sync (fst (fetchAirQuality fetch c)).
Proof.
  intros Hsync. unfold fetchAirQuality.
  destruct (try_block _ _ c) as [e|c'] eqn:E; [exact Hsync|].
  cbn [fst]. revert E. unfold try_block.
  destruct (fetch (AirPollution (latitude c) (longitude c)))
    as [|[|] [[[[|x l]|]]|]];
    destruct (fetch (AirPollutionForecast (latitude c) (longitude c)))
      as [|[|] [[[[|y l']|]]|]];
    cbn -[slice_0_24 updateChart]; try discriminate;
    intros E; injection E as <-;
    try exact Hsync.
  unfold slice_0_24. cbn [firstn].
  destruct (chartCanvas c) eqn:Hcanvas.
  - rewrite updateChart_bound by exact Hcanvas.
    unfold chart_in_sync. cbn -[firstn]. repeat split; trivial.
    discriminate.
  - unfold chart_in_sync in *. cbn -[firstn].
    destruct (chart c) as [shown|]; [|exact I].
    destruct Hsync as [Hbound _]. congruence.
Qed.

(** X11.  The chart on the screen is never stale: it is always the chart
    of the stored forecast, in its order, drawn over a bound canvas from a
    forecast that is not empty.  This holds at the start and is kept by a
    fetch (failed or not), by the binding of the canvas, by the reactive
    redraw and by both ways of changing the theme; with at most 24 stored
    entries the chart has at most 24 points, a label for each. *)
Theorem chart_is_never_stale :
  chart_in_sync initial /\
  (forall (fetch : Network) (c : Component),
      chart_in_sync c -> chart_in_sync (fst (fetchAirQuality fetch c))) /\
  (forall c : Component,
      chart_in_sync c ->
      chart_in_sync (canvas_or_forecast_changed c) /\
      chart_in_sync (bind_canvas c) /\
      chart_in_sync (toggleDarkMode c) /\
      forall matches, chart_in_sync (systemThemeChanged matches c)) /\
  (forall (c : Component) (shown : Chart),
      chart_in_sync c -> chart c = Some shown ->
      (List.length (forecastData c) <= 24)%nat ->
      data shown = aqi_data_of (forecastData c) /\
      (List.length (data shown) <= 24)%nat /\
      List.length (labels shown) = List.length (data shown)).
Proof.
  repeat apply conj.
  - exact I.
  - exact fetch_in_sync.
  - intros c Hsync. repeat apply conj.
    + unfold canvas_or_forecast_changed.
      destruct (chartCanvas c && _) eqn:E; [|exact Hsync].
      apply andb_true_iff in E as [_ Hlen]. apply Nat.ltb_lt in Hlen.
      apply redraw_in_sync; [|exact Hsync].
      intros Hnil. rewrite Hnil in Hlen. simpl in Hlen. lia.
    + unfold bind_canvas, canvas_or_forecast_changed.
      cbn [chartCanvas forecastData set_chartCanvas andb].
      destruct (0 <? List.length (forecastData c))%nat eqn:Hlen.
      * apply Nat.ltb_lt in Hlen.
        rewrite updateChart_bound by reflexivity.
        unfold chart_in_sync. simpl. repeat split; trivial.
        intros Hnil. rewrite Hnil in Hlen. simpl in Hlen. lia.
      * unfold chart_in_sync in *. simpl.
        destruct (chart c) as [shown|]; [|exact I].
        destruct Hsync as (_ & Hne & Heq). auto.
    + unfold toggleDarkMode. cbn [chart set_darkMode].
      destruct (chart c) as [shown|] eqn:Hchart.
      * assert (Hsync' : chart_in_sync (set_darkMode (negb (darkMode c)) c)).
        { unfold chart_in_sync in *. simpl. rewrite Hchart in *. exact Hsync. }
        assert (Hne : forecastData c <> []).
        { unfold chart_in_sync in Hsync. rewrite Hchart in Hsync. tauto. }
        exact (redraw_in_sync (set_darkMode _ c) Hne Hsync').
      * unfold chart_in_sync. simpl. now rewrite Hchart.
    + intros matches. unfold systemThemeChanged. cbn [chart set_darkMode].
      destruct (chart c) as [shown|] eqn:Hchart.
      * assert (Hsync' : chart_in_sync (set_darkMode matches c)).
        { unfold chart_in_sync in *. simpl. rewrite Hchart in *. exact Hsync. }
        assert (Hne : forecastData c <> []).
        { unfold chart_in_sync in Hsync. rewrite Hchart in Hsync. tauto. }
        exact (redraw_in_sync (set_darkMode _ c) Hne Hsync').
      * unfold chart_in_sync. simpl. now rewrite Hchart.
  - intros c shown Hsync Hchart Hlen.
    unfold chart_in_sync in Hsync. rewrite Hchart in Hsync.
    destruct Hsync as (_ & _ & ->). unfold chart_of, aqi_data_of. simpl.
    rewrite !length_map. auto.
Qed.

(** [chart_is_never_stale] on a component with a bound canvas, after a
    fetch of 40 forecast entries. *)
Lemma chart_is_never_stale_witness :
  chart_in_sync
    (fst (fetchAirQuality
            (answering
               (Response true
                  (Some (mkPayload (Some [entry_of 2 1700000000]))))
               (Response true
                  (Some (mkPayload (Some (hourly_forecast 40))))))
            (bind_canvas initial))).
Proof.
  destruct chart_is_never_stale as (Hinit & Hfetch & Hview & _).
  apply Hfetch. exact (proj1 (proj2 (Hview initial Hinit))).
Defined.

(** X12.  [fetchAirQuality] never clears the error message: after a call
    the message is the one from before or the fetch message, and once the
    fetch message is set it stays through every later call, those that go
    through included. *)
Theorem fetch_error_is_sticky (fetch : Network) (c : Component) :
  let message :=
    Some "Failed to fetch air quality data. Please try again later." in
  (error (fst (fetchAirQuality fetch c)) = error c \/
   error (fst (fetchAirQuality fetch c)) = message) /\
  (error c = message -> error (fst (fetchAirQuality fetch c)) = message) /\
  (forall fetch' : Network,
      caught (fetch (AirPollution (latitude c) (longitude c)))
             (fetch (AirPollutionForecast (latitude c) (longitude c))) c ->
      error (fst (fetchAirQuality fetch'
                    (fst (fetchAirQuality fetch c)))) = message).
Proof.
  intros message.
  assert (Hstep : forall f d,
             error (fst (fetchAirQuality f d)) = error d \/
             error (fst (fetchAirQuality f d)) = message).
  { intros f d. unfold fetchAirQuality.
    destruct (try_block _ _ d) as [e|d'] eqn:E; [right; reflexivity|].
    left. apply (try_block_error _ _ _ _ E). }
  repeat apply conj.
  - apply Hstep.
  - intros H. destruct (Hstep fetch c) as [E|E]; congruence.
  - intros fetch' [e He].
    assert (H1 : error (fst (fetchAirQuality fetch c)) = message).
    { unfold fetchAirQuality. rewrite He. reflexivity. }
    destruct (Hstep fetch' (fst (fetchAirQuality fetch c))) as [E|E];
      congruence.
Qed.

(** [fetch_error_is_sticky]: a failed refresh followed by a successful
    one leaves the message on the screen beside the new index. *)
Lemma fetch_error_is_sticky_witness :
  let down := answering Rejected Rejected in
  let up := answering
              (Response true
                 (Some (mkPayload (Some [entry_of 2 1700000000]))))
              (Response true
                 (Some (mkPayload (Some (hourly_forecast 24))))) in
  error (fst (fetchAirQuality up (fst (fetchAirQuality down initial))))
  = Some "Failed to fetch air quality data. Please try again later.".
Proof.
  intros down up.
  apply (proj2 (proj2 (fetch_error_is_sticky down initial)) up).
  exists FetchRejected. reflexivity.
Defined.

(** X13.  A fetch that goes through with fewer than 24 forecast entries
    stores them all, in order.  With an empty or missing forecast list it
    still replaces the current index and time, and keeps the forecast and
    the chart of the previous fetch beside them. *)
Theorem short_or_missing_forecast
    (fetch : Network) (c : Component)
    (current : Entry) (others : list Entry) (forecast : Payload) :
  fetch (AirPollution (latitude c) (longitude c))
  = Response true (Some (mkPayload (Some (current :: others)))) ->
  fetch (AirPollutionForecast (latitude c) (longitude c))
  = Response true (Some forecast) ->
  let c' := fst (fetchAirQuality fetch c) in
  (forall l, entry_list forecast = Some l -> l <> [] ->
             (List.length l <= 24)%nat -> forecastData c' = l) /\
  (entry_list forecast = None \/ entry_list forecast = Some [] ->
   forecastData c' = forecastData c /\
   chart c' = chart c /\
   currentAQI c' = convertOpenWeatherMapAQI (aqi (main current)) /\
   lastUpdateTime c' = Some (dt current * 1000)%Z).
Proof.
  intros Hcur Hfc c'. subst c'. unfold fetchAirQuality, try_block.
  rewrite Hcur, Hfc. cbn -[slice_0_24 updateChart].
  split.
  - intros l Hl Hne Hlen. rewrite Hl.
    destruct l as [|item items]; [now contradiction Hne|].
    cbn -[slice_0_24 updateChart].
    destruct (chartCanvas c); cbn -[slice_0_24 updateChart];
      rewrite ?updateChart_forecastData; cbn -[slice_0_24];
      unfold slice_0_24; apply firstn_all2; exact Hlen.
  - intros [H | H]; rewrite H; repeat split.
Qed.

(** [short_or_missing_forecast] with three forecast entries. *)
Lemma short_or_missing_forecast_witness :
  forecastData
    (fst (fetchAirQuality
            (answering
               (Response true
                  (Some (mkPayload (Some [entry_of 2 1700000000]))))
               (Response true
                  (Some (mkPayload (Some (hourly_forecast 3))))))
            initial))
  = hourly_forecast 3.
Proof.
  assert (Hlen : (List.length (hourly_forecast 3) <= 24)%nat)
    by (vm_compute; lia).
  apply (proj1 (short_or_missing_forecast
                  (answering
                     (Response true
                        (Some (mkPayload (Some [entry_of 2 1700000000]))))
                     (Response true
                        (Some (mkPayload (Some (hourly_forecast 3))))))
                  initial (entry_of 2 1700000000) []
                  (mkPayload (Some (hourly_forecast 3)))
                  eq_refl eq_refl)
           (hourly_forecast 3) eq_refl);
    [discriminate | exact Hlen].
Defined.

(** ** Math.max over numbers *)

Lemma le_refl_number (a : float) : is_nan a = false -> le a a = true.
Proof.
  unfold is_nan. intros H. apply negb_false_iff in H.
  apply eq_le. exact H.
Qed.

Lemma zero_rank (a : float) :
  isPositiveZero a = true \/ isNegativeZero a = true ->
  frank a = Some RZero.
Proof.
  unfold isPositiveZero, isNegativeZero, frank.
  rewrite classify_spec. unfold SF64classify, SFclassify.
  destruct (Prim2SF a) as [[|]|[|]| |[|] m e]; simpl;
    intros [H|H]; try discriminate H; try reflexivity;
    match type of H with
    | context [if ?b then _ else _] => destruct b; discriminate H
    end.
Qed.

(** One turn of [Math.max] on two numbers keeps one of them, and that one
    is at least the other. *)
Lemma max_step_upper (h x : float) :
  is_nan h = false -> is_nan x = false ->
  (max_step h x = h \/ max_step h x = x) /\
  le h (max_step h x) = true /\ le x (max_step h x) = true.
Proof.
  intros Hh Hx. unfold max_step. rewrite Hh, Hx. cbn [orb].
  destruct (isPositiveZero x && isNegativeZero h) eqn:Hz.
  - apply andb_true_iff in Hz as [Zx Zh].
    split; [right; reflexivity|]. split.
    + apply le_rank. exists RZero, RZero.
      repeat split; auto using zero_rank.
    + apply le_refl_number; exact Hx.
  - unfold gt. fold (lt h x). destruct (lt h x) eqn:Hlt.
    + split; [right; reflexivity|]. split.
      * apply lt_le; exact Hlt.
      * apply le_refl_number; exact Hx.
    + split; [left; reflexivity|]. split.
      * apply le_refl_number; exact Hh.
      * apply not_lt_le; assumption.
Qed.

Lemma max_fold_upper (l : list float) :
  forall h : float,
    is_nan h = false -> (forall x, In x l -> is_nan x = false) ->
    (fold_left max_step l h = h \/ In (fold_left max_step l h) l) /\
    le h (fold_left max_step l h) = true /\
    (forall x, In x l -> le x (fold_left max_step l h) = true).
Proof.
  induction l as [|y l IH]; intros h Hh Hl.
  - simpl. split; [left; reflexivity|]. split.
    + apply le_refl_number; exact Hh.
    + intros x [].
  - simpl fold_left.
    assert (Hy : is_nan y = false) by (apply Hl; left; reflexivity).
    destruct (max_step_upper h y Hh Hy) as (Hsel & Hle_h & Hle_y).
    assert (Hm : is_nan (max_step h y) = false)
      by (destruct Hsel as [-> | ->]; assumption).
    destruct (IH (max_step h y) Hm (fun x Hx => Hl x (or_intror Hx)))
      as (Hsel' & Hle_m & Hall).
    repeat split.
    + destruct Hsel' as [E | Hin]; [|right; right; exact Hin].
      rewrite E. destruct Hsel as [-> | ->]; [left | right; left]; reflexivity.
    + exact (le_trans _ _ _ Hle_h Hle_m).
    + intros x [<- | Hx]; [exact (le_trans _ _ _ Hle_y Hle_m)|].
      apply Hall. exact Hx.
Qed.

(** The values plotted for provider categories are the five table
    values. *)
Lemma plotted_values (l : list Entry) :
  (forall item, In item l -> In (aqi (main item)) [1; 2; 3; 4; 5]) ->
  forall x, In x (aqi_data_of l) -> In x [20; 60; 120; 180; 250].
Proof.
  intros Hcat x Hx. unfold aqi_data_of in Hx.
  apply in_map_iff in Hx as (item & <- & Hitem).
  specialize (Hcat item Hitem). simpl in Hcat.
  destruct Hcat as [<-|[<-|[<-|[<-|[<-|[]]]]]]; simpl; auto 6.
Qed.

(** X14.  The scale of the chart for a forecast of provider categories 1
    to 5 that is not empty: the highest plotted value is one of the
    plotted values; the suggested maximum of the y axis is 40, 72, 144, 216
    or 300 for a highest value of 20, 60, 120, 180 or 250, strictly above
    every plotted value (and below 50 when the highest value is 20); and
    the line has the colour of the highest value, which is never gray. *)
Theorem chart_scale_for_categories (l : list Entry) :
  l <> [] ->
  (forall item, In item l -> In (aqi (main item)) [1; 2; 3; 4; 5]) ->
  let values := aqi_data_of l in
  let scale := chartScale values in
  In (Math_max values) values /\
  (forall x, In x values -> le x (Math_max values) = true) /\
  In (Math_max values, suggestedMax scale)
     [(20, 40); (60, 72); (120, 144); (180, 216); (250, 300)] /\
  (forall x, In x values -> lt x (suggestedMax scale) = true) /\
  borderColor scale = getAQIColor (Math_max values) /\
  In (borderColor scale)
     ["#22c55e"; "#eab308"; "#f97316"; "#ef4444"; "#8F3F97"].
Proof.
  intros Hne Hcat values scale.
  pose proof (plotted_values l Hcat) as Hvals. fold values in Hvals.
  assert (Hnum : forall x, In x values -> is_nan x = false).
  { intros x Hx. specialize (Hvals x Hx). simpl in Hvals.
    destruct Hvals as [<-|[<-|[<-|[<-|[<-|[]]]]]]; reflexivity. }
  destruct (max_fold_upper values neg_infinity eq_refl Hnum)
    as (Hsel & _ & Hall).
  fold (Math_max values) in Hsel, Hall.
  assert (Hin : In (Math_max values) values).
  { destruct Hsel as [E | Hin]; [|exact Hin]. exfalso.
    destruct l as [|item items]; [now contradiction Hne|].
    assert (Hx : In (convertOpenWeatherMapAQI (aqi (main item))) values)
      by (left; reflexivity).
    pose proof (Hall _ Hx) as Hle. rewrite E in Hle.
    specialize (Hvals _ Hx). simpl in Hvals.
    destruct Hvals as [H|[H|[H|[H|[H|[]]]]]]; rewrite <- H in Hle;
      vm_compute in Hle; discriminate. }
  assert (Hpair : In (Math_max values, suggestedMax scale)
                     [(20, 40); (60, 72); (120, 144); (180, 216); (250, 300)]
                  /\ lt (Math_max values) (suggestedMax scale) = true
                  /\ In (borderColor scale)
                       ["#22c55e"; "#eab308"; "#f97316"; "#ef4444";
                        "#8F3F97"]).
  { subst scale. unfold chartScale. cbn [suggestedMax borderColor].
    pose proof (Hvals _ Hin) as Hm. simpl in Hm.
    destruct Hm as [H|[H|[H|[H|[H|[]]]]]]; rewrite <- H;
      repeat split; vm_compute; auto 6. }
  destruct Hpair as (Hpair & Hlt & Hcolor).
  repeat apply conj; trivial.
  intros x Hx. exact (le_lt_trans _ _ _ (Hall x Hx) Hlt).
Qed.

(** [chart_scale_for_categories] on a forecast of 24 entries of
    category 2. *)
Lemma chart_scale_for_categories_witness :
  In (Math_max (aqi_data_of (hourly_forecast 24)),
      suggestedMax (chartScale (aqi_data_of (hourly_forecast 24))))
     [(20, 40); (60, 72); (120, 144); (180, 216); (250, 300)].
Proof.
  assert (Hne : hourly_forecast 24 <> []) by discriminate.
  assert (Hcat : forall item, In item (hourly_forecast 24) ->
                              In (aqi (main item)) [1; 2; 3; 4; 5]).
  { intros item Hitem. unfold hourly_forecast in Hitem.
    apply in_map_iff in Hitem as (i & <- & _). simpl. auto. }
  exact (proj1 (proj2 (proj2
           (chart_scale_for_categories (hourly_forecast 24) Hne Hcat)))).
Defined.

End ViewFacts.
(* ================================================================== *)
(** * Facts: what every search leaves behind *)
(* ================================================================== *)

Module SearchInvariants.

Import JSString App Search SearchFacts.
#[local] Open Scope string_scope.

(** The component at the end of one call, taken on its own, that got past
    the two guards, case by case: the spinner is off, and either a message
    is set and the results are empty, or the message is empty. *)
Lemma search_outcome (fetch : Network) (query : string) (c : Component) :
  let r := searchLocation fetch query c in
  (truthy (trim query) = false /\ r = (c, [])) \/
  (r = (set_searchResults [] c, [])) \/
  (isSearching (fst r) = false /\
   (searchError (fst r) = "" \/ searchResults (fst r) = []) /\
   (snd r = [Zip query] \/ snd r = [Direct query 10] \/
    snd r = [Direct query 10; Direct (slice_0_minus1 query) 10])).
Proof.
  intros r. subst r. unfold searchLocation.
  destruct (truthy (trim query)); cbn [negb]; [|left; split; reflexivity].
  destruct ((String.length query <? 3)%nat && negb (test_digits query));
    [right; left; reflexivity|].
  right. right.
  destruct (test_five_digits query) eqn:Hzip; cbn [negb andb].
  - destruct (fetch (Zip query)) as [|status [data|]];
      try (repeat split; auto; fail).
    destruct ((status =? 404)%nat || isEmptyArray data);
      [repeat split; auto|].
    destruct data; repeat split; auto.
  - destruct (fetch (Direct query 10)) as [|status [data|]];
      try (repeat split; auto; fail).
    destruct ((status =? 404)%nat || isEmptyArray data).
    + destruct (3 <=? String.length query)%nat;
        [|repeat split; auto].
      destruct (fetch (Direct (slice_0_minus1 query) 10))
        as [|st [[lenientData|o]|]]; try (repeat split; auto; fail).
      destruct (filter _ lenientData); repeat split; auto.
    + destruct data; repeat split; auto.
Qed.

(** X15.  The search spinner is never left on: whenever a lookup was
    issued the flag [isSearching] is false at the end, whatever came back
    (a rejected request, a body that is not JSON, no match), and a call
    that issues no lookup leaves the flag as it was. *)
Theorem spinner_is_never_left_on
    (fetch : Network) (query : string) (c : Component) :
  let r := searchLocation fetch query c in
  (snd r <> [] -> isSearching (fst r) = false) /\
  (snd r = [] -> isSearching (fst r) = isSearching c) /\
  (isSearching c = false -> isSearching (fst r) = false).
Proof.
  intros r.
  destruct (search_outcome fetch query c)
    as [[_ H] | [H | (Hspin & _ & Hreq)]];
    fold r in H || fold r in Hspin, Hreq.
  - rewrite H. repeat split; auto. intros Hne. now contradiction Hne.
  - rewrite H. repeat split; auto. intros Hne. now contradiction Hne.
  - repeat split; auto.
    intros Hnil. rewrite Hnil in Hreq.
    destruct Hreq as [Hreq | [Hreq | Hreq]]; discriminate Hreq.
Qed.

(** [spinner_is_never_left_on] on a network that rejects every request,
    starting with the spinner on. *)
Lemma spinner_is_never_left_on_witness :
  isSearching
    (fst (searchLocation (fun _ => Failed) "Paris"
            (set_isSearching true initial)))
  = false.
Proof.
  apply (proj1 (spinner_is_never_left_on (fun _ => Failed) "Paris"
                  (set_isSearching true initial))).
  discriminate.
Defined.

(** X16.  A search costs at most two lookups, whatever the network
    answers: none, the postal code lookup alone, or the free-text lookup,
    alone or followed by the one lookup for the query without its last
    character. *)
Theorem at_most_two_lookups
    (fetch : Network) (query : string) (c : Component) :
  let r := searchLocation fetch query c in
  (snd r = [] \/ snd r = [Zip query] \/ snd r = [Direct query 10] \/
   snd r = [Direct query 10; Direct (slice_0_minus1 query) 10]) /\
  (List.length (snd r) <= 2)%nat.
Proof.
  intros r.
  destruct (search_outcome fetch query c)
    as [[Hblank H] | [H | (_ & _ & Hreq)]];
    fold r in H || fold r in Hreq.
  - rewrite H. split; simpl; auto.
  - rewrite H. split; simpl; auto.
  - split; [right; exact Hreq|].
    destruct Hreq as [-> | [-> | ->]]; simpl; lia.
Qed.
End SearchInvariants.
(* ================================================================== *)
(** * Facts: the displayed location and the selection of a result *)
(* ================================================================== *)

Module NamingFacts.

Import JSString App Fetcher View Search Naming.
#[local] Open Scope string_scope.

Lemma fetchLocationName_writes_location (net : NameNetwork) (c : Component) :
  exists text, fst (fetchLocationName net c) = set_location text c.
Proof.
  unfold fetchLocationName, unavailable.
  destruct (weather net _ _) as [|[|] [data|]]; try (eexists; reflexivity).
  destruct (reverse net _ _) as [|[|] [geoData|]]; eexists; reflexivity.
Qed.

(** X17.  [fetchLocationName] on failure: when the weather request is
    rejected, not successful or not JSON, the location reads "Location
    unavailable" and the reverse lookup is not made; when the reverse
    lookup fails in one of these ways the location reads the same, the
    city name of the first answer being dropped.  Nothing but [location] is
    written in any case. *)
Theorem location_unavailable_on_failure
    (net : NameNetwork) (c : Component) :
  let r := fetchLocationName net c in
  let failed {A : Type} (a : Answer A) :=
    a = NoAnswer \/ (exists json, a = Answered false json) \/
    a = Answered true None in
  (failed (weather net (latitude c) (longitude c)) ->
   location (fst r) = "Location unavailable" /\
   snd r = [Weather (latitude c) (longitude c)]) /\
  (~ failed (weather net (latitude c) (longitude c)) ->
   failed (reverse net (latitude c) (longitude c)) ->
   location (fst r) = "Location unavailable" /\
   snd r = [Weather (latitude c) (longitude c);
            Reverse (latitude c) (longitude c) 1]) /\
  (exists text, fst r = set_location text c).
Proof.
  intros r failed. subst r. repeat apply conj.
  - unfold fetchLocationName. intros [-> | [[json ->] | ->]];
      split; reflexivity.
  - unfold fetchLocationName. intros Hw Hr.
    destruct (weather net _ _) as [|[|] [data|]].
    + exfalso. apply Hw. left. reflexivity.
    + destruct Hr as [-> | [[json ->] | ->]]; split; reflexivity.
    + exfalso. apply Hw. right. right. reflexivity.
    + exfalso. apply Hw. right. left. eexists. reflexivity.
    + exfalso. apply Hw. right. left. eexists. reflexivity.
  - apply fetchLocationName_writes_location.
Qed.

(** [location_unavailable_on_failure] on a network that rejects every
    request. *)
Lemma location_unavailable_on_failure_witness :
  location (fst (fetchLocationName no_names initial))
  = "Location unavailable" /\
  snd (fetchLocationName no_names initial)
  = [Weather (latitude initial) (longitude initial)].
Proof.
  apply (proj1 (location_unavailable_on_failure no_names initial)).
  left. reflexivity.
Defined.



(** ** What the air quality fetch does not touch *)

Ltac frame_try_block cur fc c :=
  unfold try_block;
  destruct cur as [|[|] [[[[|x l]|]]|]];
  destruct fc as [|[|] [[[[|y l']|]]|]];
  try reflexivity;
  cbn -[slice_0_24]; unfold updateChart; cbn -[slice_0_24];
  destruct (chartCanvas c); reflexivity.

Lemma try_block_frame_location (cur fc : Fetched) (text : string)
    (c : Component) :
  try_block cur fc (set_location text c)
  = match try_block cur fc c with
    | inl e => inl e
    | inr c' => inr (set_location text c')
    end.
Proof. frame_try_block cur fc c. Qed.

Lemma try_block_frame_input (cur fc : Fetched) (text : string)
    (c : Component) :
  try_block cur fc (set_locationInput text c)
  = match try_block cur fc c with
    | inl e => inl e
    | inr c' => inr (set_locationInput text c')
    end.
Proof. frame_try_block cur fc c. Qed.

Lemma try_block_frame_results (cur fc : Fetched)
    (results : list SearchResult) (c : Component) :
  try_block cur fc (set_searchResults results c)
  = match try_block cur fc c with
    | inl e => inl e
    | inr c' => inr (set_searchResults results c')
    end.
Proof. frame_try_block cur fc c. Qed.

(** The air quality fetch commutes with the assignments of
    [selectLocation] that do not concern it. *)
Lemma fetch_after_cleared_search (air : Fetcher.Network) (text : string)
    (c : Component) :
  fetchAirQuality air
    (set_location text (set_searchResults [] (set_locationInput "" c)))
  = (set_location text
       (set_searchResults []
          (set_locationInput "" (fst (fetchAirQuality air c)))),
     snd (fetchAirQuality air c)).
Proof.
  unfold fetchAirQuality.
  cbn [latitude longitude set_location set_searchResults set_locationInput].
  rewrite try_block_frame_location, try_block_frame_results,
    try_block_frame_input.
  destruct (try_block _ _ c); reflexivity.
Qed.

Lemma fetchLocationName_at (net : NameNetwork) (c d : Component) :
  latitude c = latitude d -> longitude c = longitude d ->
  exists text,
    fst (fetchLocationName net c) = set_location text c /\
    fst (fetchLocationName net d) = set_location text d /\
    snd (fetchLocationName net c) = snd (fetchLocationName net d) /\
    hd_error (snd (fetchLocationName net c))
    = Some (Weather (latitude c) (longitude c)).
Proof.
  intros Hla Hlo. unfold fetchLocationName, unavailable.
  rewrite <- Hla, <- Hlo.
  destruct (weather net _ _) as [|[|] [data|]];
    try (eexists; repeat split; reflexivity).
  destruct (reverse net _ _) as [|[|] [geoData|]];
    eexists; repeat split; reflexivity.
Qed.

(** X19.  Selecting a search result moves the whole view to it: the
    coordinates are the result's, the search box and the result list are
    emptied, the air quality requests and the weather request are made
    for the result's coordinates, and the air quality variables are what
    [fetchAirQuality] gives there.  The location shown at the end is the
    one [fetchLocationName] finds for these coordinates, "Location
    unavailable" on failure: it does not depend on the name of the result
    that was clicked. *)
Theorem selection_moves_the_view
    (names : NameNetwork) (air : Fetcher.Network)
    (result : SearchResult) (c : Component) :
  let r := selectLocation names air result c in
  let moved := set_longitude (lon result) (set_latitude (lat result) c) in
  latitude (fst r) = lat result /\
  longitude (fst r) = lon result /\
  locationInput (fst r) = "" /\
  searchResults (fst r) = [] /\
  snd (snd r) = [ AirPollution (lat result) (lon result);
                  AirPollutionForecast (lat result) (lon result) ] /\
  hd_error (fst (snd r)) = Some (Weather (lat result) (lon result)) /\
  location (fst r) = location (fst (fetchLocationName names moved)) /\
  currentAQI (fst r) = currentAQI (fst (fetchAirQuality air moved)) /\
  pollutants (fst r) = pollutants (fst (fetchAirQuality air moved)) /\
  forecastData (fst r) = forecastData (fst (fetchAirQuality air moved)) /\
  error (fst r) = error (fst (fetchAirQuality air moved)).
Proof.
  intros r moved.
  set (c4 := set_searchResults []
               (set_locationInput ""
                  (set_longitude (lon result)
                     (set_latitude (lat result)
                        (set_location (selected_label result) c))))).
  destruct (fetchLocationName_at names c4 moved eq_refl eq_refl)
    as (text & Hc4 & Hmoved & _ & Hhead).
  assert (Hr : r = (set_location text
                      (set_searchResults []
                         (set_locationInput ""
                            (fst (fetchAirQuality air moved)))),
                    (snd (fetchLocationName names c4),
                     snd (fetchAirQuality air moved)))).
  { subst r. unfold selectLocation. fold c4.
    destruct (fetchLocationName names c4) as [c5 name_requests] eqn:E.
    cbn [fst snd] in Hc4 |- *. subst c5.
    change (set_location text c4)
      with (set_location text
              (set_searchResults [] (set_locationInput "" moved))).
    rewrite fetch_after_cleared_search. reflexivity. }
  rewrite Hr. cbn [fst snd]. rewrite Hmoved.
  assert (Hcoords : forall f d,
             latitude (fst (fetchAirQuality f d)) = latitude d /\
             longitude (fst (fetchAirQuality f d)) = longitude d).
  { intros f d. unfold fetchAirQuality, try_block.
    destruct (f (AirPollution (latitude d) (longitude d)))
      as [|[|] [[[[|x l]|]]|]];
      destruct (f (AirPollutionForecast (latitude d) (longitude d)))
        as [|[|] [[[[|y l']|]]|]];
      try (split; reflexivity);
      cbn -[slice_0_24]; unfold updateChart; cbn -[slice_0_24];
      destruct (chartCanvas d); split; reflexivity. }
  destruct (Hcoords air moved) as [Hla Hlo].
  repeat apply conj; try reflexivity.
  - exact Hla.
  - exact Hlo.
  - unfold fetchAirQuality. destruct (try_block _ _ moved); reflexivity.
  - exact Hhead.
Qed.

(** X20.  A postal code match is a single result with an empty state, and
    selecting it names the place "name, country": for a query of five
    digits answered by an object with a status other than 404, the result
    list holds exactly that match, no message is set and only the postal
    code lookup was made. *)
Theorem postal_code_match_is_single
    (fetch : Search.Network) (query : string) (c : Component)
    (status : nat) (o : ZipMatch) :
  test_five_digits query = true ->
  fetch (Zip query) = Replied status (Some (ObjectData o)) ->
  status <> 404%nat ->
  let r := searchLocation fetch query c in
  let found := mkSearchResult (zip_name o) (Some "") (zip_country o)
                              (zip_lat o) (zip_lon o) in
  searchResults (fst r) = [found] /\
  searchError (fst r) = "" /\
  snd r = [Zip query] /\
  selected_label found = zip_name o ++ ", " ++ zip_country o.
Proof.
  intros Hzip Hreply Hstatus r found. subst r. unfold searchLocation.
  rewrite (SearchFacts.five_digits_not_blank _ Hzip),
    (SearchFacts.five_digits_length _ Hzip), Hzip.
  cbn [negb Nat.ltb Nat.leb andb]. rewrite Hreply.
  apply Nat.eqb_neq in Hstatus. rewrite Hstatus.
  repeat split.
Qed.

(** [postal_code_match_is_single] for the query "10001". *)
Lemma postal_code_match_is_single_witness :
  let o := mkZipMatch "New York" "US" 40.7484%float (-73.9967)%float in
  let fetch := fun _ : Endpoint => Replied 200 (Some (ObjectData o)) in
  searchResults (fst (searchLocation fetch "10001" initial))
  = [mkSearchResult "New York" (Some "") "US"
       40.7484%float (-73.9967)%float].
Proof.
  intros o fetch.
  assert (Hstatus : 200%nat <> 404%nat) by discriminate.
  exact (proj1 (postal_code_match_is_single fetch "10001" initial 200 o
                  eq_refl eq_refl Hstatus)).
Defined.

End NamingFacts.
